(** * The DEPLOY_COLLECTION action of plugin-solana-agentkit

    A shallow embedding of
    [packages/plugin-solana-agentkit/src/actions/deployCollection.ts]:
    the zod schema [collectionSchema], the metadata pre-check
    [validateMetadataUri] and the action's [handler]; of the
    POST_TWEET_TOKEN handler of the same package; of the package's test of
    the first handler; and of the interactive chat loop of [agent.ts].

    Conventions of the embedding.
    - A JavaScript value that comes out of JSON (the object produced by the
      language model, the fetched metadata document, the database row) is a
      [json] tree; [undefined] is [None] of [option json].
    - A JavaScript number is a [number]: a finite value carried as the exact
      rational it denotes, the two infinities and NaN.  Comparisons against
      the literals 0, 100 and 10000 are exact on such values.
    - An awaited external call either returns or throws; a thrown value is an
      [Error] object and the handler only reads its [message].
    - The handler is a computation in the monad [M]: it produces the ordered
      list of external calls it performed (its trace) together with the
      settled state of its promise.  Calls to [elizaLogger] are local logging
      and are left out of the trace; [runtime.getSetting] is a pure lookup.
    - [callback] is the framework's optional [HandlerCallback]; the handler
      never awaits what it returns, so only the fact that it was invoked, and
      with which payload, is recorded. *)

From Stdlib Require Import String Ascii List Bool Arith QArith Lia.
From Stdlib Require Import DecimalString DecimalZ.
Import ListNotations.
Open Scope string_scope.

Set Implicit Arguments.
Set Warnings "-register-all".

(** ** JavaScript values *)

Inductive number : Type :=
| Finite (q : Q)
| PosInfinity
| NegInfinity
| NaN.

(** [a < b] of JavaScript. *)
Definition num_lt (a b : number) : bool :=
  match a, b with
  | NaN, _ | _, NaN => false
  | Finite x, Finite y => negb (Qle_bool y x)
  | Finite _, PosInfinity => true
  | Finite _, NegInfinity => false
  | PosInfinity, _ => false
  | NegInfinity, NegInfinity => false
  | NegInfinity, _ => true
  end.

Definition num_gt (a b : number) : bool := num_lt b a.

Definition of_Z (z : Z) : number := Finite (inject_Z z).

Inductive json : Type :=
| JNull
| JBool (b : bool)
| JNum (n : number)
| JStr (s : string)
| JArr (items : list json)
| JObj (fields : list (string * json)).

(** ToBoolean. *)
Definition truthy_num (n : number) : bool :=
  match n with
  | Finite q => negb (Qeq_bool q 0)
  | NaN => false
  | PosInfinity | NegInfinity => true
  end.

Definition truthy_str (s : string) : bool :=
  match s with
  | EmptyString => false
  | _ => true
  end.

Definition truthy (v : json) : bool :=
  match v with
  | JNull => false
  | JBool b => b
  | JNum n => truthy_num n
  | JStr s => truthy_str s
  | JArr _ | JObj _ => true
  end.

(** ToBoolean of a value that may be [undefined]. *)
Definition truthy_opt (v : option json) : bool :=
  match v with
  | Some x => truthy x
  | None => false
  end.

Definition truthy_ostr (s : option string) : bool :=
  match s with
  | Some x => truthy_str x
  | None => false
  end.

(** Own property of a parsed object; the key list of a [JObj] stands for the
    object's properties, the first binding of a key being the property. *)
Fixpoint lookup (k : string) (fields : list (string * json)) : option json :=
  match fields with
  | [] => None
  | (k', v) :: rest => if String.eqb k k' then Some v else lookup k rest
  end.

(** ** Errors and the handler monad *)

Inductive seg : Type :=
| Key (k : string)
| Idx (i : nat).

Inductive issue_code : Type :=
| invalid_type
| too_small
| too_big
| invalid_string.

(** One entry of [ZodError.issues]; [custom] is the message given in the
    schema, when the schema gives one. *)
Record ZodIssue : Type := mkIssue {
  code : issue_code;
  path : list seg;
  custom : option string
}.

Inductive Error : Type :=
| ZodError (issues : list ZodIssue)
| TypeError (msg : string)
| OtherError (msg : string).

Inductive outcome (A : Type) : Type :=
| Returned (a : A)
| Thrown (e : Error).
Arguments Thrown {A} e.

Record Creator : Type := mkCreator {
  address : string;
  percentage : number
}.

(** The argument of [solanaAgentKit.deployCollection]. *)
Record CollectionOptions : Type := mkOptions {
  name : string;
  uri : string;
  royaltyBasisPoints : number;
  creators : list Creator
}.

(** What [deployCollection] resolves to. *)
Record CollectionDeployment : Type := mkDeployment {
  collectionAddress : string;
  signature : string
}.

Inductive Content : Type :=
| ContentError (error : string)
| ContentSuccess (collectionAddress name signature : string).

(** The object handed to [callback]. *)
Record Response : Type := mkResponse {
  text : string;
  content : Content
}.

Inductive event : Type :=
| EvGetMetrics (userId : string)
| EvModel (context : string)
| EvFetch (uri : string)
| EvNewKit (privateKey rpc openAIKey : option string)
| EvDeploy (options : CollectionOptions)
| EvCallback (r : Response).

Definition M (A : Type) : Type := (list event * outcome A)%type.

Definition ret {A} (a : A) : M A := ([], Returned a).

Definition bind {A B} (m : M A) (f : A -> M B) : M B :=
  match m with
  | (t, Returned a) => let (t', r) := f a in ((t ++ t')%list, r)
  | (t, Thrown e) => (t, Thrown e)
  end.

(** [try { m } catch (error) { h error }]. *)
Definition try_catch {A} (m : M A) (h : Error -> M A) : M A :=
  match m with
  | (t, Thrown e) => let (t', r) := h e in ((t ++ t')%list, r)
  | (t, Returned a) => (t, Returned a)
  end.

(** An awaited external call: it is recorded, then it returns or throws. *)
Definition call {A} (ev : event) (o : outcome A) : M A := ([ev], o).

(** A pure step that may throw. *)
Definition lift {A} (o : outcome A) : M A := ([], o).

Declare Scope handler_scope.
Delimit Scope handler_scope with handler.
Notation "x <- m ;; k" := (bind m (fun x => k))
  (at level 100, m at next level, right associativity) : handler_scope.
Notation "m ;;; k" := (bind m (fun _ => k))
  (at level 100, right associativity) : handler_scope.

Definition trace {A} (m : M A) : list event := fst m.
Definition settled {A} (m : M A) : outcome A := snd m.

(** ** zod, as far as [collectionSchema] uses it *)

Inductive zres (A : Type) : Type :=
| ZOk (a : A)
| ZErr (issues : list ZodIssue).
Arguments ZErr {A} issues.

(** Fields of an object are all parsed and their issues are collected. *)
Definition zap {A B} (f : zres (A -> B)) (x : zres A) : zres B :=
  match f, x with
  | ZOk g, ZOk a => ZOk (g a)
  | ZOk _, ZErr i => ZErr i
  | ZErr i, ZOk _ => ZErr i
  | ZErr i, ZErr j => ZErr (i ++ j)%list
  end.

Definition zmap {A B} (g : A -> B) (x : zres A) : zres B := zap (ZOk g) x.

(** A schema parses the value found at a path; the value may be
    [undefined]. *)
Definition Schema (A : Type) : Type := list seg -> option json -> zres A.

Inductive string_check : Type :=
| str_min (n : nat) (msg : option string)
| str_url (msg : option string).

Inductive number_check : Type :=
| num_min (bound : number)
| num_max (bound : number).

Definition of_issues {A} (a : A) (issues : list ZodIssue) : zres A :=
  match issues with
  | [] => ZOk a
  | _ => ZErr issues
  end.

Section Zod.

(** [new URL(s)] does not throw. *)
Variable is_url : string -> bool.

Definition run_string_check (p : list seg) (s : string) (c : string_check)
  : list ZodIssue :=
  match c with
  | str_min n msg =>
      if Nat.ltb (String.length s) n then [mkIssue too_small p msg] else []
  | str_url msg =>
      if is_url s then [] else [mkIssue invalid_string p msg]
  end.

Definition z_string (checks : list string_check) : Schema string :=
  fun p v =>
    match v with
    | Some (JStr s) => of_issues s (flat_map (run_string_check p s) checks)
    | _ => ZErr [mkIssue invalid_type p None]
    end.

Definition run_number_check (p : list seg) (n : number) (c : number_check)
  : list ZodIssue :=
  match c with
  | num_min b => if num_lt n b then [mkIssue too_small p None] else []
  | num_max b => if num_gt n b then [mkIssue too_big p None] else []
  end.

Definition z_number (checks : list number_check) : Schema number :=
  fun p v =>
    match v with
    | Some (JNum NaN) => ZErr [mkIssue invalid_type p None]
    | Some (JNum n) => of_issues n (flat_map (run_number_check p n) checks)
    | _ => ZErr [mkIssue invalid_type p None]
    end.

Definition z_optional {A} (s : Schema A) : Schema (option A) :=
  fun p v =>
    match v with
    | None => ZOk None
    | Some _ => zmap Some (s p v)
    end.

Fixpoint parse_items {A} (s : Schema A) (p : list seg) (i : nat)
    (items : list json) : zres (list A) :=
  match items with
  | [] => ZOk []
  | x :: rest =>
      zap (zmap cons (s (p ++ [Idx i])%list (Some x)))
          (parse_items s p (S i) rest)
  end.

Definition z_array {A} (s : Schema A) : Schema (list A) :=
  fun p v =>
    match v with
    | Some (JArr items) => parse_items s p 0 items
    | _ => ZErr [mkIssue invalid_type p None]
    end.

(** [z.object({ address: z.string(),
                percentage: z.number().min(0).max(100) })] *)
Definition creatorSchema : Schema Creator :=
  fun p v =>
    match v with
    | Some (JObj fields) =>
        zap (zmap mkCreator
               (z_string [] (p ++ [Key "address"])%list
                  (lookup "address" fields)))
            (z_number [num_min (of_Z 0); num_max (of_Z 100)]
               (p ++ [Key "percentage"])%list (lookup "percentage" fields))
    | _ => ZErr [mkIssue invalid_type p None]
    end.

(** The output type of [collectionSchema]. *)
Record CollectionParams : Type := mkParams {
  p_name : string;
  p_uri : string;
  p_royaltyBasisPoints : option number;
  p_creators : option (list Creator)
}.

Definition collectionSchema : Schema CollectionParams :=
  fun p v =>
    match v with
    | Some (JObj fields) =>
        zap (zap (zap (zmap mkParams
          (z_string [str_min 1 (Some "Name is required")]
             (p ++ [Key "name"])%list (lookup "name" fields)))
          (z_string [str_url (Some "URI must be a valid URL")]
             (p ++ [Key "uri"])%list (lookup "uri" fields)))
          (z_optional (z_number [num_min (of_Z 0); num_max (of_Z 10000)])
             (p ++ [Key "royaltyBasisPoints"])%list
             (lookup "royaltyBasisPoints" fields)))
          (z_optional (z_array creatorSchema)
             (p ++ [Key "creators"])%list (lookup "creators" fields))
    | _ => ZErr [mkIssue invalid_type p None]
    end.

(** [schema.parse(data)]: the parsed value, or a thrown [ZodError]. *)
Definition parse {A} (s : Schema A) (data : option json) : outcome A :=
  match s [] data with
  | ZOk a => Returned a
  | ZErr issues => Thrown (ZodError issues)
  end.

End Zod.

(** ** The world around the handler *)

(** The framework's [State], a plain object. *)
Definition State : Type := json.

Record MessageContent : Type := mkContent {
  msg_text : option string;
  msg_source : option string
}.

Record Memory : Type := mkMemory {
  userId : string;
  roomId : string;
  msg_content : MessageContent
}.

(** An instance of [SolanaAgentKit]. *)
Record SolanaAgentKit : Type := mkKit {
  wallet_address : string;
  deployCollection : CollectionOptions -> outcome CollectionDeployment
}.

(** [IAgentRuntime], as far as the handler reaches into it:
    [runtime.getSetting], [runtime.databaseAdapter.getMetrics] and the model
    behind [generateObjectDeprecated({ runtime, context, modelClass })]. *)
Record IAgentRuntime : Type := mkRuntime {
  getSetting : string -> option string;
  getMetrics : string -> outcome (option json);
  generateObjectDeprecated : string -> outcome (option json)
}.

(** The imported functions whose code is outside this package. *)
Record Env : Type := mkEnv {
  (** [new URL(s)] does not throw *)
  is_url : string -> bool;
  (** [ZodError.message] *)
  zod_message : list ZodIssue -> string;
  (** [composeContext({ state, template })] *)
  composeContext : State -> string -> outcome string;
  (** [(await fetch(uri)).json()] *)
  fetch_json : string -> outcome json;
  (** [new SolanaAgentKit(privateKey, rpc, openAIKey)] *)
  newSolanaAgentKit :
    option string -> option string -> option string -> outcome SolanaAgentKit
}.

Definition dq : string := String (ascii_of_nat 34) EmptyString.
Definition nl : string := String (ascii_of_nat 10) EmptyString.

Definition collectionTemplate : string :=
  String.concat nl [
    EmptyString;
    "Extract the NFT collection details from this message in JSON format.";
    "Message: " ++ dq ++ "{{message.content.text}}" ++ dq;
    "Rules:";
    "- Name: Full collection name";
    "- URI: Must be a complete metadata JSON URL that contains:";
    "  * name";
    "  * description";
    "  * image URL";
    "  * attributes/properties";
    "  Example URI: " ++ dq ++ "https://arweave.net/[hash]/metadata.json" ++ dq ++ " or " ++ dq ++ "https://gateway.pinata.cloud/ipfs/[hash]" ++ dq;
    "- Royalty Basis Points: A number between 0-10000 (500 = 5%)";
    "- Creators: Array of objects with 'address' and 'percentage'";
    EmptyString;
    "If no URI is specified, use this default metadata URI:";
    dq ++ "https://raw.githubusercontent.com/solana-developers/opos-asset/main/assets/CompressedCoil/metadata.json" ++ dq;
    EmptyString;
    "Example Response:";
    "```json";
    "{";
    "    " ++ dq ++ "name" ++ dq ++ ": " ++ dq ++ "My NFT Collection" ++ dq ++ ",";
    "    " ++ dq ++ "uri" ++ dq ++ ": " ++ dq ++ "https://arweave.net/123abc/metadata.json" ++ dq ++ ",";
    "    " ++ dq ++ "royaltyBasisPoints" ++ dq ++ ": 500,";
    "    " ++ dq ++ "creators" ++ dq ++ ": [";
    "        { " ++ dq ++ "address" ++ dq ++ ": " ++ dq ++ "SOLANA_ADDRESS" ++ dq ++ ", " ++ dq ++ "percentage" ++ dq ++ ": 100 }";
    "    ]";
    "}";
    "```";
    EmptyString;
    "If any required field is missing, use these defaults:";
    "- royaltyBasisPoints: 500 (5%)";
    "- creators: [{ " ++ dq ++ "address" ++ dq ++ ": " ++ dq ++ "<wallet_address>" ++ dq ++ ", " ++ dq ++ "percentage" ++ dq ++ ": 100 }]";
    EmptyString
  ].

Definition fallback_metadata_uri : string :=
  "https://raw.githubusercontent.com/solana-developers/opos-asset/main/assets/CompressedCoil/metadata.json".

(** [error.message] *)
Definition error_message (env : Env) (e : Error) : string :=
  match e with
  | ZodError issues => zod_message env issues
  | TypeError msg => msg
  | OtherError msg => msg
  end.

(** [v.k] for a value [v] that came out of JSON and a key [k] that is not a
    built-in property: reading a property of [null] throws, a primitive or an
    array has no such property. *)
Definition get_prop (v : json) (k : string) : outcome (option json) :=
  match v with
  | JNull => Thrown (TypeError "Cannot read properties of null")
  | JObj fields => Returned (lookup k fields)
  | _ => Returned None
  end.

(** [a || b] at the types the handler uses it. *)
Definition or_string (a : option string) (b : string) : string :=
  match a with
  | Some s => if truthy_str s then s else b
  | None => b
  end.

Definition or_number (a : option number) (b : number) : number :=
  match a with
  | Some n => if truthy_num n then n else b
  | None => b
  end.

Definition or_array {A} (a : option (list A)) (b : list A) : list A :=
  match a with
  | Some l => l
  | None => b
  end.

Definition or_json (a : option json) (b : json) : json :=
  match a with
  | Some v => if truthy v then v else b
  | None => b
  end.

Definition json_of_setting (s : option string) : json :=
  match s with
  | Some x => JStr x
  | None => JNull
  end.

(** [if (callback) { callback(r); }] *)
Definition invoke (callback : bool) (r : Response) : M unit :=
  if callback then ([EvCallback r], Returned tt) else ret tt.

Section Handler.

Variable env : Env.
Variable runtime : IAgentRuntime.

Local Open Scope handler_scope.

(** [validateMetadataUri]: one fetch; any failure is swallowed and answered
    with [false]. *)
Definition validateMetadataUri (uri : string) : M bool :=
  try_catch
    (metadata <- call (EvFetch uri) (fetch_json env uri) ;;
     name <- lift (get_prop metadata "name") ;;
     if negb (truthy_opt name) then ret false else
     description <- lift (get_prop metadata "description") ;;
     if negb (truthy_opt description) then ret false else
     image <- lift (get_prop metadata "image") ;;
     ret (truthy_opt image))
    (fun _ => ret false).

(** The action's [handler(runtime, message, state, _options, callback)];
    [callback] tells whether the optional callback was supplied. *)
Definition handler (message : Memory) (state : State) (callback : bool)
  : M bool :=
  try_catch
    (if negb (truthy_ostr (msg_text (msg_content message)))
        && negb (truthy_ostr (msg_source (msg_content message)))
     then
       invoke callback
         {| text := "Cannot process empty message content";
            content := ContentError "Empty message content" |} ;;;
       ret false
     else
       metrics <- call (EvGetMetrics (userId message))
                    (getMetrics runtime (userId message)) ;;
       let userMetrics :=
         or_json metrics
           (JObj [("defaultRoyalty", JNum (of_Z 500));
                  ("defaultCreator",
                     json_of_setting
                       (getSetting runtime "SOLANA_PUBLIC_KEY"))]) in
       context <- lift (composeContext env state collectionTemplate) ;;
       params <- call (EvModel context)
                   (generateObjectDeprecated runtime context) ;;
       validatedParams <- lift (parse (collectionSchema (is_url env)) params) ;;
       replace_uri <-
         (if negb (truthy_str (p_uri validatedParams)) then ret true else
          ok <- validateMetadataUri (p_uri validatedParams) ;;
          ret (negb ok)) ;;
       let validated_uri :=
         if replace_uri : bool
         then or_string (getSetting runtime "DEFAULT_NFT_METADATA_URI")
                fallback_metadata_uri
         else p_uri validatedParams in
       let solanaPrivatekey := getSetting runtime "SOLANA_PRIVATE_KEY" in
       let rpc := getSetting runtime "SOLANA_RPC_URL" in
       let openAIKey := getSetting runtime "OPENAI_API_KEY" in
       solanaAgentKit <-
         call (EvNewKit solanaPrivatekey rpc openAIKey)
           (newSolanaAgentKit env solanaPrivatekey rpc openAIKey) ;;
       let options :=
         {| name := p_name validatedParams;
            uri := validated_uri;
            royaltyBasisPoints :=
              or_number (p_royaltyBasisPoints validatedParams) (of_Z 500);
            creators :=
              or_array (p_creators validatedParams)
                [ {| address := wallet_address solanaAgentKit;
                     percentage := of_Z 100 |} ] |} in
       result <- call (EvDeploy options)
                   (deployCollection solanaAgentKit options) ;;
       invoke callback
         {| text := "Successfully deployed NFT collection " ++ dq
                    ++ p_name validatedParams ++ dq
                    ++ "! Collection address: "
                    ++ collectionAddress result;
            content := ContentSuccess (collectionAddress result)
                         (p_name validatedParams) (signature result) |} ;;;
       ret true)
    (fun error =>
       invoke callback
         {| text := "Failed to deploy collection: " ++ error_message env error;
            content := ContentError (error_message env error) |} ;;;
       ret false).

End Handler.

(** ** Sample worlds

    Concrete inputs on which the statements below are exercised.  The runtime
    follows the mock runtime of the package's test: three settings are
    configured and every other key yields the empty string. *)

Definition sample_is_url (s : string) : bool :=
  String.prefix "https://" s && Nat.ltb 8 (String.length s).

Definition sample_deployment : CollectionDeployment :=
  {| collectionAddress := "COLLECTION1"; signature := "SIG1" |}.

Definition sample_kit : SolanaAgentKit :=
  {| wallet_address := "WALLET1";
     deployCollection := fun _ => Returned sample_deployment |}.

Definition sample_env (doc : outcome json) : Env :=
  {| is_url := sample_is_url;
     zod_message := fun _ => "Invalid input";
     composeContext := fun _ template => Returned template;
     fetch_json := fun _ => doc;
     newSolanaAgentKit := fun _ _ _ => Returned sample_kit |}.

Definition sample_settings (key : string) : option string :=
  if String.eqb key "SOLANA_PRIVATE_KEY" then Some "PRIVATE1"
  else if String.eqb key "SOLANA_RPC_URL" then Some "https://rpc.example.org"
  else if String.eqb key "OPENAI_API_KEY" then Some "OPENAI1"
  else Some EmptyString.

Definition sample_runtime (candidate : json) : IAgentRuntime :=
  {| getSetting := sample_settings;
     getMetrics := fun _ => Returned None;
     generateObjectDeprecated := fun _ => Returned (Some candidate) |}.

Definition sample_message : Memory :=
  {| userId := "test-user";
     roomId := "test-room";
     msg_content :=
       {| msg_text := Some "Create an NFT collection called Test Collection";
          msg_source := None |} |}.

Definition empty_message : Memory :=
  {| userId := "test-user";
     roomId := "test-room";
     msg_content := {| msg_text := None; msg_source := None |} |}.

Definition sample_state : State := JObj [].

Definition sample_uri : string := "https://example.org/metadata.json".

Definition good_metadata : json :=
  JObj [("name", JStr "Test"); ("description", JStr "A test collection");
        ("image", JStr "https://example.org/image.png")].

Definition creator_json (a : string) (p : Z) : json :=
  JObj [("address", JStr a); ("percentage", JNum (of_Z p))].

(** A fully specified candidate with the given royalty. *)
Definition full_candidate (royalty : number) : json :=
  JObj [("name", JStr "Test Collection"); ("uri", JStr sample_uri);
        ("royaltyBasisPoints", JNum royalty);
        ("creators", JArr [creator_json "CREATOR1" 60;
                           creator_json "CREATOR2" 40])].

(** A candidate that leaves [creators] out. *)
Definition candidate_without_creators : json :=
  JObj [("name", JStr "Test Collection"); ("uri", JStr sample_uri);
        ("royaltyBasisPoints", JNum (of_Z 500))].

(** A candidate whose [creators] is the empty array. *)
Definition candidate_no_creator : json :=
  JObj [("name", JStr "Test Collection"); ("uri", JStr sample_uri);
        ("royaltyBasisPoints", JNum (of_Z 500)); ("creators", JArr [])].

(** ** Vocabulary of the statements *)

(** The invocations of [callback]: none when no callback was supplied. *)
Definition reports (callback : bool) (r : Response) : list event :=
  if callback then [EvCallback r] else [].

Definition empty_response : Response :=
  {| text := "Cannot process empty message content";
     content := ContentError "Empty message content" |}.

Definition failure_response (env : Env) (e : Error) : Response :=
  {| text := "Failed to deploy collection: " ++ error_message env e;
     content := ContentError (error_message env e) |}.

Definition success_response (v : CollectionParams) (r : CollectionDeployment)
  : Response :=
  {| text := "Successfully deployed NFT collection " ++ dq ++ p_name v ++ dq
             ++ "! Collection address: " ++ collectionAddress r;
     content := ContentSuccess (collectionAddress r) (p_name v) (signature r) |}.

(** The URI the handler falls back to. *)
Definition default_uri (runtime : IAgentRuntime) : string :=
  or_string (getSetting runtime "DEFAULT_NFT_METADATA_URI")
    fallback_metadata_uri.

(** The message passes the guard on empty content. *)
Definition has_content (message : Memory) : bool :=
  truthy_ostr (msg_text (msg_content message))
  || truthy_ostr (msg_source (msg_content message)).

(** The fetched document has truthy [name], [description] and [image]. *)
Definition complete_metadata (doc : outcome json) : bool :=
  match doc with
  | Returned (JObj fields) =>
      truthy_opt (lookup "name" fields)
      && truthy_opt (lookup "description" fields)
      && truthy_opt (lookup "image" fields)
  | _ => false
  end.

Definition is_fetch (ev : event) : bool :=
  match ev with EvFetch _ => true | _ => false end.

Definition is_model (ev : event) : bool :=
  match ev with EvModel _ => true | _ => false end.

Definition is_deploy (ev : event) : bool :=
  match ev with EvDeploy _ => true | _ => false end.

Definition is_callback (ev : event) : bool :=
  match ev with EvCallback _ => true | _ => false end.

Definition count (f : event -> bool) (t : list event) : nat :=
  List.length (List.filter f t).

(** The value lies outside the closed interval [lo, hi]. *)
Definition outside (lo hi : Z) (n : number) : Prop :=
  match n with
  | Finite q => q < inject_Z lo \/ inject_Z hi < q
  | PosInfinity | NegInfinity => True
  | NaN => False
  end.

Definition within (lo hi : Z) (n : number) : Prop :=
  match n with
  | Finite q => inject_Z lo <= q /\ q <= inject_Z hi
  | _ => False
  end.

Definition is_integer (n : number) : Prop :=
  match n with
  | Finite q => exists z : Z, q == inject_Z z
  | _ => False
  end.

(** The object with the property [k] deleted. *)
Fixpoint remove_key (k : string) (fields : list (string * json))
  : list (string * json) :=
  match fields with
  | [] => []
  | (k', v) :: rest =>
      if String.eqb k k' then remove_key k rest
      else (k', v) :: remove_key k rest
  end.

(** The runtime with another [databaseAdapter.getMetrics]. *)
Definition with_getMetrics (runtime : IAgentRuntime)
    (g : string -> outcome (option json)) : IAgentRuntime :=
  {| getSetting := getSetting runtime;
     getMetrics := g;
     generateObjectDeprecated := generateObjectDeprecated runtime |}.

(** The request the handler builds from validated parameters, the outcome of
    the metadata check and the SDK instance. *)
Definition request (runtime : IAgentRuntime) (v : CollectionParams)
    (metadata_ok : bool) (kit : SolanaAgentKit) : CollectionOptions :=
  {| name := p_name v;
     uri := if metadata_ok then p_uri v else default_uri runtime;
     royaltyBasisPoints := or_number (p_royaltyBasisPoints v) (of_Z 500);
     creators := or_array (p_creators v)
                   [ {| address := wallet_address kit;
                        percentage := of_Z 100 |} ] |}.

(** The metadata step: the fetch it performs, if any, and whether the URI is
    kept. *)
Definition metadata_step (env : Env) (v : CollectionParams)
  : list event * bool :=
  if truthy_str (p_uri v)
  then ([EvFetch (p_uri v)], complete_metadata (fetch_json env (p_uri v)))
  else ([], false).

Definition new_kit_event (runtime : IAgentRuntime) : event :=
  EvNewKit (getSetting runtime "SOLANA_PRIVATE_KEY")
    (getSetting runtime "SOLANA_RPC_URL")
    (getSetting runtime "OPENAI_API_KEY").

(** [new SolanaAgentKit(...)] on the three settings the handler reads. *)
Definition new_kit (env : Env) (runtime : IAgentRuntime)
  : outcome SolanaAgentKit :=
  newSolanaAgentKit env (getSetting runtime "SOLANA_PRIVATE_KEY")
    (getSetting runtime "SOLANA_RPC_URL")
    (getSetting runtime "OPENAI_API_KEY").

(** A creator as the schema reads it off an array item. *)
Definition reads_creator (item : json) (c : Creator) : Prop :=
  exists fields,
    item = JObj fields
    /\ lookup "address" fields = Some (JStr (address c))
    /\ lookup "percentage" fields = Some (JNum (percentage c))
    /\ within 0 100 (percentage c).

(** The fetch failed, or what it returned is not an object with the three
    fields. *)
Definition metadata_unusable (doc : outcome json) : Prop :=
  match doc with
  | Thrown _ => True
  | Returned (JObj fields) =>
      exists k, In k ["name"; "description"; "image"] /\ lookup k fields = None
  | Returned _ => True
  end.

(** The parameters with another list of creators. *)
Definition with_creators (v : CollectionParams) (l : option (list Creator))
  : CollectionParams :=
  {| p_name := p_name v; p_uri := p_uri v;
     p_royaltyBasisPoints := p_royaltyBasisPoints v; p_creators := l |}.

(** A runtime in which [SOLANA_PUBLIC_KEY] is configured. *)
Definition runtime_with_public_key (pk : string) (candidate : json)
  : IAgentRuntime :=
  {| getSetting := fun key =>
       if String.eqb key "SOLANA_PUBLIC_KEY" then Some pk
       else sample_settings key;
     getMetrics := fun _ => Returned None;
     generateObjectDeprecated := fun _ => Returned (Some candidate) |}.

(** The paths through the handler, as a relation on its runs. *)

Section PathsOfARun.

Variable env : Env.
Variable runtime : IAgentRuntime.
Variable message : Memory.
Variable callback : bool.

(** The calls made before an error reached the [catch] block. *)
Inductive failure_at : list event -> Prop :=
| fail_lookup :
    failure_at [EvGetMetrics (userId message)]
| fail_model (context : string) :
    failure_at [EvGetMetrics (userId message); EvModel context]
| fail_kit (context : string) (data : option json) (v : CollectionParams) :
    parse (collectionSchema (is_url env)) data = Returned v ->
    failure_at
      ([EvGetMetrics (userId message); EvModel context]
         ++ fst (metadata_step env v) ++ [new_kit_event runtime])%list
| fail_deploy (context : string) (data : option json)
    (v : CollectionParams) (kit : SolanaAgentKit) :
    parse (collectionSchema (is_url env)) data = Returned v ->
    failure_at
      ([EvGetMetrics (userId message); EvModel context]
         ++ fst (metadata_step env v)
         ++ [new_kit_event runtime;
             EvDeploy (request runtime v (snd (metadata_step env v)) kit)])%list.

Inductive run : M bool -> Prop :=
| run_empty :
    has_content message = false ->
    run (reports callback empty_response, Returned false)
| run_failed (pre : list event) (e : Error) :
    has_content message = true ->
    failure_at pre ->
    run ((pre ++ reports callback (failure_response env e))%list,
         Returned false)
| run_deployed (context : string) (data : option json)
    (v : CollectionParams) (kit : SolanaAgentKit)
    (r : CollectionDeployment) :
    has_content message = true ->
    parse (collectionSchema (is_url env)) data = Returned v ->
    deployCollection kit (request runtime v (snd (metadata_step env v)) kit)
    = Returned r ->
    run (([EvGetMetrics (userId message); EvModel context]
            ++ fst (metadata_step env v)
            ++ [new_kit_event runtime;
                EvDeploy (request runtime v (snd (metadata_step env v)) kit)]
            ++ reports callback (success_response v r))%list,
         Returned true).

End PathsOfARun.

(** ** Further vocabulary *)

Definition is_new_kit (ev : event) : bool :=
  match ev with EvNewKit _ _ _ => true | _ => false end.

Definition is_get_metrics (ev : event) : bool :=
  match ev with EvGetMetrics _ => true | _ => false end.

(** How the schema reads the two optional fields. *)
Definition reads_royalty (x : option json) (r : option number) : Prop :=
  (x = None /\ r = None)
  \/ (exists n, x = Some (JNum n) /\ r = Some n /\ within 0 10000 n).

Definition reads_creators (x : option json) (cs : option (list Creator))
  : Prop :=
  (x = None /\ cs = None)
  \/ (exists items l,
         x = Some (JArr items) /\ cs = Some l /\ Forall2 reads_creator items l).

(** The object [fields] is a well-formed candidate and [v] is what it says. *)
Definition well_formed (is_url : string -> bool)
    (fields : list (string * json)) (v : CollectionParams) : Prop :=
  lookup "name" fields = Some (JStr (p_name v))
  /\ p_name v <> EmptyString
  /\ lookup "uri" fields = Some (JStr (p_uri v))
  /\ is_url (p_uri v) = true
  /\ reads_royalty (lookup "royaltyBasisPoints" fields) (p_royaltyBasisPoints v)
  /\ reads_creators (lookup "creators" fields) (p_creators v).

(** The four keys of [collectionSchema]. *)
Definition schema_keys : list string :=
  ["name"; "uri"; "royaltyBasisPoints"; "creators"].

(** The runtime with one setting changed. *)
Definition with_setting (runtime : IAgentRuntime) (key : string)
    (value : option string) : IAgentRuntime :=
  {| getSetting := fun k =>
       if String.eqb k key then value else getSetting runtime k;
     getMetrics := getMetrics runtime;
     generateObjectDeprecated := generateObjectDeprecated runtime |}.

(** ** The package's test

    [mockRuntime] of the test defines [getSetting] only: it has no
    [databaseAdapter], so [runtime.databaseAdapter.getMetrics] throws a
    [TypeError].  The environment variables it reads and the model behind it
    are left open. *)

Definition mockRuntime (process_env : string -> option string)
    (model : string -> outcome (option json)) : IAgentRuntime :=
  {| getSetting := fun key =>
       if String.eqb key "SOLANA_PRIVATE_KEY"
       then process_env "SOLANA_PRIVATE_KEY"
       else if String.eqb key "SOLANA_RPC_URL"
       then process_env "SOLANA_RPC_URL"
       else if String.eqb key "OPENAI_API_KEY"
       then process_env "OPENAI_API_KEY"
       else Some EmptyString;
     getMetrics := fun _ =>
       Thrown (TypeError
                 "Cannot read properties of undefined (reading 'getMetrics')");
     generateObjectDeprecated := model |}.

Definition testMessage : Memory :=
  {| userId := "test-user";
     roomId := "test-room";
     msg_content :=
       {| msg_text :=
            Some ("Create an NFT collection called " ++ dq ++ "Test Collection"
                  ++ dq ++ " with metadata at " ++ fallback_metadata_uri
                  ++ " and 5% royalties");
          msg_source := None |} |}.

(** ** The POST_TWEET_TOKEN action

    The second handler of the package: it builds the SDK instance, names a
    token after the current time and asks the SDK to deploy it. *)

(** [`${n}`] for an integral number [n]. *)
Definition string_of_Z (z : Z) : string :=
  NilEmpty.string_of_int (Z.to_int z).

Module PostTweetToken.

Record TokenDetails : Type := mkDetails {
  name : string;
  symbol : string;
  uri : string;
  decimals : Z
}.

Inductive Content : Type :=
| ContentSuccess (deployedAddress : json) (tokenDetails : TokenDetails)
    (skipMedia : bool)
| ContentError (error : string) (skipMedia : bool).

Record Response : Type := mkResponse {
  text : string;
  content : Content
}.

Inductive event : Type :=
| EvNewKit (privateKey rpc openAIKey : option string)
| EvDeployToken (name uri symbol : string) (decimals : Z)
| EvCallback (r : Response).

(** An instance of [SolanaAgentKit], as far as this handler uses it. *)
Record SolanaAgentKit : Type := mkKit {
  deployToken : string -> string -> string -> Z -> outcome json
}.

Record Env : Type := mkEnv {
  (** [ZodError.message], should such an error be thrown at the handler *)
  zod_message : list ZodIssue -> string;
  (** [new SolanaAgentKit(privateKey, rpc, openAIKey)] *)
  newSolanaAgentKit :
    option string -> option string -> option string -> outcome SolanaAgentKit;
  (** [new Date().getTime()] *)
  now : Z;
  (** [`${value}`] for what [deployToken] resolves to *)
  to_string : json -> string
}.

Definition T (A : Type) : Type := (list event * outcome A)%type.

Definition ret {A} (a : A) : T A := ([], Returned a).

Definition bind {A B} (m : T A) (f : A -> T B) : T B :=
  match m with
  | (t, Returned a) => let (t', r) := f a in ((t ++ t')%list, r)
  | (t, Thrown e) => (t, Thrown e)
  end.

Definition try_catch {A} (m : T A) (h : Error -> T A) : T A :=
  match m with
  | (t, Thrown e) => let (t', r) := h e in ((t ++ t')%list, r)
  | (t, Returned a) => (t, Returned a)
  end.

Definition call {A} (ev : event) (o : outcome A) : T A := ([ev], o).

Definition invoke (callback : bool) (r : Response) : T unit :=
  if callback then ([EvCallback r], Returned tt) else ret tt.

Definition trace {A} (m : T A) : list event := fst m.
Definition settled {A} (m : T A) : outcome A := snd m.

(** [error.message] *)
Definition error_message (env : Env) (e : Error) : string :=
  match e with
  | ZodError issues => zod_message env issues
  | TypeError msg => msg
  | OtherError msg => msg
  end.

(** The action's [handler(runtime, message, _state, _options, callback)]. *)
Definition handler (env : Env) (runtime : IAgentRuntime) (message : Memory)
    (callback : bool) : T bool :=
  try_catch
    (let solanaPrivatekey := getSetting runtime "SOLANA_PRIVATE_KEY" in
     let rpc := getSetting runtime "SOLANA_RPC_URL" in
     let openAIKey := getSetting runtime "OPENAI_API_KEY" in
     bind (call (EvNewKit solanaPrivatekey rpc openAIKey)
             (newSolanaAgentKit env solanaPrivatekey rpc openAIKey))
       (fun solanaAgentKit =>
     let tweetText := msg_text (msg_content message) in
     let timestamp := now env in
     let tokenDetails :=
       {| name := "Tweet Token " ++ string_of_Z timestamp;
          symbol := "TWEET";
          uri := or_string (getSetting runtime "DEFAULT_NFT_METADATA_URI")
                   fallback_metadata_uri;
          decimals := 9 |} in
     bind (call (EvDeployToken (name tokenDetails) (uri tokenDetails)
                   (symbol tokenDetails) (decimals tokenDetails))
             (deployToken solanaAgentKit (name tokenDetails)
                (uri tokenDetails) (symbol tokenDetails)
                (decimals tokenDetails)))
       (fun deployedAddress =>
     bind (invoke callback
             {| text := "Minted token for tweet: "
                        ++ to_string env deployedAddress;
                content := ContentSuccess deployedAddress tokenDetails true |})
       (fun _ => ret true))))
    (fun error =>
       bind (invoke callback
               {| text := "Failed to mint token: " ++ error_message env error;
                  content := ContentError (error_message env error) true |})
         (fun _ => ret false)).

(** The flag every payload of this handler carries. *)
Definition skipMedia (c : Content) : bool :=
  match c with
  | ContentSuccess _ _ b => b
  | ContentError _ b => b
  end.

Definition is_deploy_token (ev : event) : bool :=
  match ev with EvDeployToken _ _ _ _ => true | _ => false end.


End PostTweetToken.

Definition sample_token_env (minted : outcome json) : PostTweetToken.Env :=
  {| PostTweetToken.zod_message := fun _ => "Invalid input";
     PostTweetToken.newSolanaAgentKit := fun _ _ _ =>
       Returned {| PostTweetToken.deployToken := fun _ _ _ _ => minted |};
     PostTweetToken.now := 1736500000123;
     PostTweetToken.to_string := fun v =>
       match v with JStr s => s | _ => "[object Object]" end |}.

Definition sample_token_env_at (t : Z) (minted : outcome json)
  : PostTweetToken.Env :=
  {| PostTweetToken.zod_message := fun _ => "Invalid input";
     PostTweetToken.newSolanaAgentKit := fun _ _ _ =>
       Returned {| PostTweetToken.deployToken := fun _ _ _ _ => minted |};
     PostTweetToken.now := t;
     PostTweetToken.to_string := fun v =>
       match v with JStr s => s | _ => "[object Object]" end |}.

(** An SDK instance whose deployment fails. *)
Definition failing_kit : SolanaAgentKit :=
  {| wallet_address := "WALLET1";
     deployCollection := fun _ => Thrown (OtherError "insufficient funds") |}.

(** ** The interactive chat of [agent.ts]

    [runInteractiveChat] as a function of the lines the user answers to the
    prompts.  The agent is what [initializeAgent] resolved to; it keeps its
    conversation memory between questions, so it is a state that
    [agent.stream] reads and updates.  A stream yields chunks and may fail
    after some of them.  The session produces the ordered list of what it
    does on the console, on the readline interface and to the agent. *)

Module Chat.

Inductive console : Type :=
| Clear
| Log (line : string)
| LogError (e : Error)
| Question (prompt : string)
| Stream (input : string)
| Write (s : string)
| Close.

(** A chunk of the stream: under the key [agent] or [tools], when present,
    the contents of its [messages]. *)
Record Chunk : Type := mkChunk {
  agent : option (list string);
  tools : option (list string)
}.

Inductive ending : Type :=
| Exited
| EndOfInput
| Rejected (e : Error).

Definition dashes : string := "--------------------------------------------".

(** [c.toLowerCase()] on the letters A to Z; that is all a comparison with
    ["exit"] can see. *)
Definition lower (c : ascii) : ascii :=
  let n := nat_of_ascii c in
  if Nat.leb 65 n && Nat.leb n 90 then ascii_of_nat (n + 32) else c.

Fixpoint toLowerCase (s : string) : string :=
  match s with
  | EmptyString => EmptyString
  | String c rest => String (lower c) (toLowerCase rest)
  end.

(** [input.toLowerCase() === "exit"] *)
Definition is_exit (input : string) : bool :=
  String.eqb (toLowerCase input) "exit".

(** [messages[0].content] *)
Definition first_content (messages : list string) : outcome string :=
  match messages with
  | c :: _ => Returned c
  | [] => Thrown (TypeError "Cannot read properties of undefined")
  end.

(** The body of the [for await] loop. *)
Definition write_chunk (chunk : Chunk) : outcome (list console) :=
  match agent chunk with
  | Some messages =>
      match first_content messages with
      | Returned c => Returned [Write c]
      | Thrown e => Thrown e
      end
  | None =>
      match tools chunk with
      | Some messages =>
          match first_content messages with
          | Returned c => Returned [Write c]
          | Thrown e => Thrown e
          end
      | None => Returned []
      end
  end.

Fixpoint write_chunks (chunks : list Chunk) (failure : option Error)
  : list console * option Error :=
  match chunks with
  | [] => ([], failure)
  | chunk :: rest =>
      match write_chunk chunk with
      | Thrown e => ([], Some e)
      | Returned out =>
          let (out', r) := write_chunks rest failure in ((out ++ out')%list, r)
      end
  end.

Section Session.

(** The agent's memory. *)
Variable S : Type.

(** [agent.stream({ messages: [new HumanMessage(input)] }, config)]: it
    throws, or it yields chunks and then ends or fails. *)
Variable stream : S -> string -> outcome (list Chunk * option Error) * S.

Fixpoint askQuestion (agent : S) (inputs : list string)
  : list console * ending :=
  match inputs with
  | [] => ([Question "You: "], EndOfInput)
  | input :: rest =>
      if is_exit input then ([Question "You: "; Close], Exited)
      else
        match stream agent input with
        | (Thrown e, _) => ([Question "You: "; Stream input], Rejected e)
        | (Returned (chunks, failure), agent') =>
            let (written, r) := write_chunks chunks failure in
            match r with
            | Some e =>
                ((Question "You: " :: Stream input :: Write "Agent: "
                    :: written)%list,
                 Rejected e)
            | None =>
                let (out, e) := askQuestion agent' rest in
                ((Question "You: " :: Stream input :: Write "Agent: "
                    :: written
                    ++ Log (String (ascii_of_nat 10) dashes) :: out)%list,
                 e)
            end
        end
  end.

(** [runInteractiveChat().catch(console.error)] *)
Definition runInteractiveChat (initializeAgent : outcome S)
    (inputs : list string) : list console * ending :=
  match initializeAgent with
  | Thrown e => ([LogError e], Rejected e)
  | Returned agent =>
      let (out, e) := askQuestion agent inputs in
      ((Clear :: Log "Chat with Solana Agent (type 'exit' to quit)"
          :: Log dashes :: out)%list,
       e)
  end.

End Session.

(** The inputs up to the first one that is an exit. *)
Fixpoint before_exit (inputs : list string) : list string :=
  match inputs with
  | [] => []
  | input :: rest => if is_exit input then [] else input :: before_exit rest
  end.

Definition streamed (out : list console) : list string :=
  flat_map (fun ev => match ev with Stream input => [input] | _ => [] end) out.

Definition is_question (ev : console) : bool :=
  match ev with Question _ => true | _ => false end.

Definition is_close (ev : console) : bool :=
  match ev with Close => true | _ => false end.

(** An agent that echoes its input and counts the questions. *)
Definition echo (n : nat) (input : string)
  : outcome (list Chunk * option Error) * nat :=
  (Returned ([ {| agent := Some [input]; tools := None |} ], None), Datatypes.S n).

End Chat.

(** What a session looks like, by the way it ends. *)
Definition session_shape (out : list Chat.console) (e : Chat.ending) : Prop :=
  length (filter Chat.is_question out)
  = (length (Chat.streamed out)
     + match e with Chat.Rejected _ => 0 | _ => 1 end)%nat
  /\ match e with
     | Chat.Exited =>
         exists pre,
           out = (pre ++ [Chat.Close])%list
           /\ filter Chat.is_close pre = []
     | _ => filter Chat.is_close out = []
     end.

(** The values the POST_TWEET_TOKEN handler builds. *)
Definition tweet_token_details (env : PostTweetToken.Env)
    (runtime : IAgentRuntime) : PostTweetToken.TokenDetails :=
  {| PostTweetToken.name := "Tweet Token " ++ string_of_Z (PostTweetToken.now env);
     PostTweetToken.symbol := "TWEET";
     PostTweetToken.uri := default_uri runtime;
     PostTweetToken.decimals := 9 |}.

Definition tweet_failure (env : PostTweetToken.Env) (e : Error)
  : PostTweetToken.Response :=
  {| PostTweetToken.text :=
       "Failed to mint token: " ++ PostTweetToken.error_message env e;
     PostTweetToken.content :=
       PostTweetToken.ContentError (PostTweetToken.error_message env e) true |}.

Definition tweet_success (env : PostTweetToken.Env) (runtime : IAgentRuntime)
    (deployedAddress : json) : PostTweetToken.Response :=
  {| PostTweetToken.text :=
       "Minted token for tweet: " ++ PostTweetToken.to_string env deployedAddress;
     PostTweetToken.content :=
       PostTweetToken.ContentSuccess deployedAddress
         (tweet_token_details env runtime) true |}.

Definition tweet_reports (callback : bool) (r : PostTweetToken.Response)
  : list PostTweetToken.event :=
  if callback then [PostTweetToken.EvCallback r] else [].

Definition tweet_kit_event (runtime : IAgentRuntime) : PostTweetToken.event :=
  PostTweetToken.EvNewKit (getSetting runtime "SOLANA_PRIVATE_KEY")
    (getSetting runtime "SOLANA_RPC_URL")
    (getSetting runtime "OPENAI_API_KEY").

Definition tweet_deploy_event (env : PostTweetToken.Env)
    (runtime : IAgentRuntime) : PostTweetToken.event :=
  PostTweetToken.EvDeployToken
    ("Tweet Token " ++ string_of_Z (PostTweetToken.now env))
    (default_uri runtime) "TWEET" 9.

(** ** The metadata pre-check *)

Lemma validateMetadataUri_run (env : Env) (u : string) :
  validateMetadataUri env u
  = ([EvFetch u], Returned (complete_metadata (fetch_json env u))).
Proof.
  unfold validateMetadataUri, complete_metadata.
  destruct (fetch_json env u) as [doc | e]; [ | reflexivity ].
  destruct doc as [ | b | n | s | items | fields ]; try reflexivity.
  cbn.
  destruct (truthy_opt (lookup "name" fields)); [ | reflexivity ].
  cbn.
  destruct (truthy_opt (lookup "description" fields)); reflexivity.
Qed.

Lemma validateMetadataUri_fetches_once (env : Env) (u : string) :
  exists ok, validateMetadataUri env u = ([EvFetch u], Returned ok).
Proof. eexists. apply validateMetadataUri_run. Qed.

#[global] Arguments validateMetadataUri : simpl never.
#[global] Arguments parse : simpl never.
#[global] Arguments collectionTemplate : simpl never.

(** ** Runs of the handler *)

Open Scope list_scope.

Section Runs.

Variable env : Env.
Variable runtime : IAgentRuntime.
Variable message : Memory.
Variable state : State.
Variable callback : bool.

Lemma handler_empty :
  has_content message = false ->
  handler env runtime message state callback
  = (reports callback empty_response, Returned false).
Proof.
  unfold has_content, handler. intros H.
  apply orb_false_elim in H. destruct H as [Ht Hs].
  rewrite Ht, Hs. destruct callback; reflexivity.
Qed.

(** The handler up to the validated parameters. *)
Variable m : option json.
Variable context : string.
Variable data : option json.
Hypothesis Hcontent : has_content message = true.
Hypothesis Hmetrics : getMetrics runtime (userId message) = Returned m.
Hypothesis Hcontext :
  composeContext env state collectionTemplate = Returned context.
Hypothesis Hmodel : generateObjectDeprecated runtime context = Returned data.

Lemma handler_invalid (issues : list ZodIssue) :
  parse (collectionSchema (is_url env)) data = Thrown (ZodError issues) ->
  handler env runtime message state callback
  = ([EvGetMetrics (userId message); EvModel context]
       ++ reports callback (failure_response env (ZodError issues)),
     Returned false)%list.
Proof.
  intros Hparse. unfold handler.
  replace (negb (truthy_ostr (msg_text (msg_content message)))
           && negb (truthy_ostr (msg_source (msg_content message))))
    with false
    by (unfold has_content in Hcontent; rewrite <- negb_orb, Hcontent;
        reflexivity).
  rewrite Hmetrics. cbn. rewrite Hcontext. cbn. rewrite Hmodel. cbn.
  rewrite Hparse. destruct callback; reflexivity.
Qed.

Variable v : CollectionParams.
Hypothesis Hparse : parse (collectionSchema (is_url env)) data = Returned v.

Lemma handler_no_kit (e : Error) :
  new_kit env runtime = Thrown e ->
  handler env runtime message state callback
  = ([EvGetMetrics (userId message); EvModel context]
       ++ fst (metadata_step env v)
       ++ [new_kit_event runtime]
       ++ reports callback (failure_response env e),
     Returned false)%list.
Proof.
  unfold new_kit. intros Hkit. unfold handler.
  replace (negb (truthy_ostr (msg_text (msg_content message)))
           && negb (truthy_ostr (msg_source (msg_content message))))
    with false
    by (unfold has_content in Hcontent; rewrite <- negb_orb, Hcontent;
        reflexivity).
  rewrite Hmetrics. cbn. rewrite Hcontext. cbn. rewrite Hmodel. cbn.
  rewrite Hparse. cbn. unfold metadata_step.
  destruct (truthy_str (p_uri v)); cbn;
    [ rewrite validateMetadataUri_run; cbn | ];
    rewrite Hkit; destruct callback; reflexivity.
Qed.

Variable kit : SolanaAgentKit.
Hypothesis Hkit : new_kit env runtime = Returned kit.

(** Once the SDK instance exists the request is sent; the handler resolves
    to [true] exactly when the deployment resolves. *)
Lemma handler_run :
  let options := request runtime v (snd (metadata_step env v)) kit in
  handler env runtime message state callback
  = ([EvGetMetrics (userId message); EvModel context]
       ++ fst (metadata_step env v)
       ++ [new_kit_event runtime; EvDeploy options]
       ++ match deployCollection kit options with
          | Returned r => reports callback (success_response v r)
          | Thrown e => reports callback (failure_response env e)
          end,
     match deployCollection kit options with
     | Returned _ => Returned true
     | Thrown _ => Returned false
     end)%list.
Proof.
  unfold new_kit in Hkit. unfold handler.
  replace (negb (truthy_ostr (msg_text (msg_content message)))
           && negb (truthy_ostr (msg_source (msg_content message))))
    with false
    by (unfold has_content in Hcontent; rewrite <- negb_orb, Hcontent;
        reflexivity).
  rewrite Hmetrics. cbn. rewrite Hcontext. cbn. rewrite Hmodel. cbn.
  rewrite Hparse. cbn. unfold metadata_step.
  destruct (truthy_str (p_uri v)) eqn:Huri; cbn.
  - rewrite validateMetadataUri_run. cbn. rewrite Hkit. cbn.
    unfold request, default_uri. cbn.
    destruct (complete_metadata (fetch_json env (p_uri v))); cbn;
      match goal with
      | |- context [deployCollection kit ?o] =>
          destruct (deployCollection kit o)
      end; destruct callback; reflexivity.
  - rewrite Hkit. cbn. unfold request, default_uri. cbn.
    match goal with
    | |- context [deployCollection kit ?o] =>
        destruct (deployCollection kit o)
    end; destruct callback; reflexivity.
Qed.

End Runs.

(** ** What the schema accepts *)

Lemma of_issues_ok {A} (a b : A) (issues : list ZodIssue) :
  of_issues a issues = ZOk b -> a = b /\ issues = [].
Proof.
  destruct issues; cbn; intros H; [ | discriminate ].
  injection H as ->. split; reflexivity.
Qed.

Lemma zap_ok {A B} (f : zres (A -> B)) (x : zres A) (b : B) :
  zap f x = ZOk b -> exists g a, f = ZOk g /\ x = ZOk a /\ b = g a.
Proof.
  destruct f as [g | i], x as [a | j]; cbn; intros H; try discriminate.
  injection H as <-. exists g, a. repeat split.
Qed.

Lemma zmap_ok {A B} (g : A -> B) (x : zres A) (b : B) :
  zmap g x = ZOk b -> exists a, x = ZOk a /\ b = g a.
Proof.
  unfold zmap. intros H. apply zap_ok in H.
  destruct H as (g' & a & Hg & Hx & ->). injection Hg as <-.
  exists a. split; [ assumption | reflexivity ].
Qed.

(** The two bounds of a number check, read on the value. *)
Lemma bounds_within (lo hi : Z) (n : number) :
  n <> NaN ->
  num_lt n (of_Z lo) = false -> num_gt n (of_Z hi) = false ->
  within lo hi n.
Proof.
  destruct n as [q | | | ]; cbn; intros Hnan Hlo Hhi;
    try discriminate; try congruence.
  apply negb_false_iff in Hlo, Hhi.
  apply Qle_bool_iff in Hlo, Hhi. split; assumption.
Qed.

Lemma outside_bounds (lo hi : Z) (n : number) :
  outside lo hi n ->
  n = NaN \/ num_lt n (of_Z lo) = true \/ num_gt n (of_Z hi) = true.
Proof.
  destruct n as [q | | | ]; cbn; intros H.
  - right. destruct H as [H | H]; [ left | right ];
      apply negb_true_iff; apply not_true_is_false; intros Hle;
      apply Qle_bool_iff in Hle; apply (Qlt_not_le _ _ H); exact Hle.
  - right. right. reflexivity.
  - right. left. reflexivity.
  - left. reflexivity.
Qed.

Section SchemaFacts.

Variable is_url : string -> bool.

Lemma z_string_ok (checks : list string_check) (p : list seg)
    (x : option json) (s : string) :
  z_string is_url checks p x = ZOk s ->
  x = Some (JStr s) /\ flat_map (run_string_check is_url p s) checks = [].
Proof.
  unfold z_string.
  destruct x as [[ | b | n | s' | items | fields ] | ]; try discriminate.
  intros H. apply of_issues_ok in H. destruct H as [-> H].
  split; [ reflexivity | assumption ].
Qed.

Lemma z_number_ok (checks : list number_check) (p : list seg)
    (x : option json) (n : number) :
  z_number checks p x = ZOk n ->
  x = Some (JNum n) /\ n <> NaN
  /\ flat_map (run_number_check p n) checks = [].
Proof.
  unfold z_number.
  destruct x as [[ | b | n' | s' | items | fields ] | ]; try discriminate.
  destruct n' as [q | | | ]; try discriminate;
    intros H; apply of_issues_ok in H; destruct H as [<- H];
    (split; [ reflexivity | split; [ discriminate | assumption ] ]).
Qed.

(** A number field with a lower and an upper bound. *)
Lemma z_number_range_ok (lo hi : Z) (p : list seg) (x : option json)
    (n : number) :
  z_number [num_min (of_Z lo); num_max (of_Z hi)] p x = ZOk n ->
  x = Some (JNum n) /\ within lo hi n.
Proof.
  intros H. apply z_number_ok in H. destruct H as (-> & Hnan & Hchecks).
  split; [ reflexivity | ].
  cbn [flat_map run_number_check] in Hchecks.
  rewrite app_nil_r in Hchecks.
  apply app_eq_nil in Hchecks. destruct Hchecks as [Hlo Hhi].
  apply bounds_within; [ assumption | | ].
  - destruct (num_lt n (of_Z lo)); [ discriminate | reflexivity ].
  - destruct (num_gt n (of_Z hi)); [ discriminate | reflexivity ].
Qed.

Lemma z_number_range_rejects (lo hi : Z) (p : list seg) (n : number) :
  outside lo hi n ->
  exists i rest,
    z_number [num_min (of_Z lo); num_max (of_Z hi)] p (Some (JNum n))
    = ZErr (i :: rest)
    /\ path i = p.
Proof.
  intros H. apply outside_bounds in H. destruct H as [-> | H].
  - do 2 eexists. split; reflexivity.
  - unfold z_number.
    destruct n as [q | | | ];
      try (do 2 eexists; split; reflexivity).
    cbn [flat_map run_number_check]. rewrite app_nil_r.
    destruct (num_lt (Finite q) (of_Z lo)) eqn:Hlo.
    + do 2 eexists. split; reflexivity.
    + destruct H as [H | H]; [ discriminate | ]. rewrite H.
      do 2 eexists. split; reflexivity.
Qed.

Lemma z_optional_ok {A} (s : Schema A) (p : list seg) (x : option json)
    (r : option A) :
  z_optional s p x = ZOk r ->
  (x = None /\ r = None) \/ (exists a, r = Some a /\ s p x = ZOk a).
Proof.
  unfold z_optional. destruct x as [y | ].
  - intros H. apply zmap_ok in H. destruct H as (a & Ha & ->).
    right. exists a. split; [ reflexivity | assumption ].
  - intros H. injection H as <-. left. split; reflexivity.
Qed.

Lemma creatorSchema_ok (p : list seg) (x : option json) (c : Creator) :
  creatorSchema is_url p x = ZOk c ->
  exists item, x = Some item /\ reads_creator item c.
Proof.
  unfold creatorSchema.
  destruct x as [[ | b | n | s | items | fields ] | ]; try discriminate.
  intros H. apply zap_ok in H. destruct H as (g & pc & Hg & Hp & ->).
  apply zmap_ok in Hg. destruct Hg as (a & Ha & ->).
  apply z_string_ok in Ha. destruct Ha as [Ha _].
  apply z_number_range_ok in Hp. destruct Hp as [Hp Hin].
  exists (JObj fields). split; [ reflexivity | ].
  exists fields. cbn. repeat split; try assumption. all: apply Hin.
Qed.

Lemma parse_items_ok (p : list seg) (items : list json) :
  forall (i : nat) (l : list Creator),
    parse_items (creatorSchema is_url) p i items = ZOk l ->
    Forall2 reads_creator items l.
Proof.
  induction items as [ | x rest IH ]; cbn [parse_items]; intros i l H.
  - injection H as <-. constructor.
  - apply zap_ok in H. destruct H as (g & tl & Hg & Htl & ->).
    apply zmap_ok in Hg. destruct Hg as (c & Hc & ->).
    apply creatorSchema_ok in Hc. destruct Hc as (item & Hitem & Hr).
    injection Hitem as <-.
    constructor; [ assumption | ]. apply (IH (S i)). assumption.
Qed.

(** Every successful parse reads a well-formed candidate. *)
Lemma collectionSchema_ok (p : list seg) (data : option json)
    (v : CollectionParams) :
  collectionSchema is_url p data = ZOk v ->
  exists fields,
    data = Some (JObj fields)
    /\ lookup "name" fields = Some (JStr (p_name v))
    /\ p_name v <> EmptyString
    /\ lookup "uri" fields = Some (JStr (p_uri v))
    /\ is_url (p_uri v) = true
    /\ ((lookup "royaltyBasisPoints" fields = None
         /\ p_royaltyBasisPoints v = None)
        \/ (exists n, lookup "royaltyBasisPoints" fields = Some (JNum n)
              /\ p_royaltyBasisPoints v = Some n /\ within 0 10000 n))
    /\ ((lookup "creators" fields = None /\ p_creators v = None)
        \/ (exists items l, lookup "creators" fields = Some (JArr items)
              /\ p_creators v = Some l /\ Forall2 reads_creator items l)).
Proof.
  unfold collectionSchema.
  destruct data as [[ | b | n | s | items | fields ] | ]; try discriminate.
  intros H. exists fields. split; [ reflexivity | ].
  apply zap_ok in H. destruct H as (g3 & cs & H & Hcs & ->).
  apply zap_ok in H. destruct H as (g2 & ro & H & Hro & ->).
  apply zap_ok in H. destruct H as (g1 & u & H & Hu & ->).
  apply zmap_ok in H. destruct H as (nm & Hnm & ->).
  cbn.
  apply z_string_ok in Hnm. destruct Hnm as [Hnm Hmin].
  apply z_string_ok in Hu. destruct Hu as [Hu Hurl].
  split; [ assumption | ]. split.
  { intros ->. cbn in Hmin. discriminate. }
  split; [ assumption | ]. split.
  { cbn in Hurl. destruct (is_url u); [ reflexivity | discriminate ]. }
  split.
  - apply z_optional_ok in Hro. destruct Hro as [[Hnone ->] | (n & -> & Hn)].
    + left. split; [ assumption | reflexivity ].
    + right. apply z_number_range_ok in Hn. destruct Hn as [Hn Hin].
      exists n. repeat split; try assumption. all: apply Hin.
  - apply z_optional_ok in Hcs. destruct Hcs as [[Hnone ->] | (l & -> & Hl)].
    + left. split; [ assumption | reflexivity ].
    + right. unfold z_array in Hl.
      destruct (lookup "creators" fields)
        as [[ | b | n | s | items | fs ] | ]; try discriminate.
      exists items, l. split; [ reflexivity | ].
      split; [ reflexivity | ]. apply (parse_items_ok _ _ _ Hl).
Qed.

Lemma parse_ok (data : option json) (v : CollectionParams) :
  parse (collectionSchema is_url) data = Returned v ->
  collectionSchema is_url [] data = ZOk v.
Proof.
  unfold parse. destruct (collectionSchema is_url [] data);
    intros H; [ injection H as -> | discriminate ]. reflexivity.
Qed.

End SchemaFacts.

(** ** The paths through the handler *)

Section Paths.

Variable env : Env.
Variable runtime : IAgentRuntime.
Variable message : Memory.
Variable state : State.
Variable callback : bool.

Lemma handler_runs :
  run env runtime message callback
    (handler env runtime message state callback).
Proof.
  destruct (has_content message) eqn:Hcontent.
  2: { rewrite handler_empty by assumption. constructor. assumption. }
  destruct (getMetrics runtime (userId message)) as [m | e] eqn:Hmetrics.
  2: { replace (handler env runtime message state callback)
         with (([EvGetMetrics (userId message)]
                  ++ reports callback (failure_response env e))%list,
               Returned false).
       - constructor; [ assumption | constructor ].
       - unfold handler, has_content in *.
         rewrite <- negb_orb, Hcontent, Hmetrics.
         destruct callback; reflexivity. }
  destruct (composeContext env state collectionTemplate)
    as [context | e] eqn:Hcontext.
  2: { replace (handler env runtime message state callback)
         with (([EvGetMetrics (userId message)]
                  ++ reports callback (failure_response env e))%list,
               Returned false).
       - constructor; [ assumption | constructor ].
       - unfold handler, has_content in *.
         rewrite <- negb_orb, Hcontent, Hmetrics. cbn.
         rewrite Hcontext. destruct callback; reflexivity. }
  destruct (generateObjectDeprecated runtime context)
    as [data | e] eqn:Hmodel.
  2: { replace (handler env runtime message state callback)
         with (([EvGetMetrics (userId message); EvModel context]
                  ++ reports callback (failure_response env e))%list,
               Returned false).
       - constructor; [ assumption | constructor ].
       - unfold handler, has_content in *.
         rewrite <- negb_orb, Hcontent, Hmetrics. cbn.
         rewrite Hcontext. cbn. rewrite Hmodel.
         destruct callback; reflexivity. }
  destruct (parse (collectionSchema (is_url env)) data)
    as [v | e] eqn:Hparse.
  2: { assert (exists issues, e = ZodError issues) as [issues ->].
       { unfold parse in Hparse.
         destruct (collectionSchema (is_url env) [] data);
           [ discriminate | injection Hparse as <-; eauto ]. }
       rewrite (handler_invalid env runtime message state callback
                  Hcontent Hmetrics Hcontext Hmodel Hparse).
       constructor; [ assumption | constructor ]. }
  destruct (new_kit env runtime) as [kit | e] eqn:Hkit.
  2: { rewrite (handler_no_kit env runtime message state callback
                  Hcontent Hmetrics Hcontext Hmodel Hparse Hkit).
       rewrite !app_assoc. constructor; [ assumption | ].
       rewrite <- !app_assoc. econstructor. eassumption. }
  rewrite (handler_run env runtime message state callback
             Hcontent Hmetrics Hcontext Hmodel Hparse Hkit).
  cbv zeta.
  destruct (deployCollection kit
              (request runtime v (snd (metadata_step env v)) kit))
    as [r | e] eqn:Hdeploy.
  - econstructor; eassumption.
  - rewrite !app_assoc. constructor; [ assumption | ].
    rewrite <- !app_assoc. econstructor. eassumption.
Qed.

End Paths.

(** ** Counting calls in a trace *)

Lemma count_app (f : event -> bool) (a b : list event) :
  count f (a ++ b) = (count f a + count f b)%nat.
Proof. unfold count. rewrite filter_app, length_app. reflexivity. Qed.

Lemma count_reports (f : event -> bool) (callback : bool) (r : Response) :
  f (EvCallback r) = false -> count f (reports callback r) = 0%nat.
Proof.
  intros H. unfold count, reports. destruct callback; cbn; [ | reflexivity ].
  rewrite H. reflexivity.
Qed.

Lemma callbacks_reports (callback : bool) (r : Response) :
  filter is_callback (reports callback r) = reports callback r.
Proof. destruct callback; reflexivity. Qed.

Lemma metadata_step_fetches (env : Env) (v : CollectionParams) :
  fst (metadata_step env v)
  = if truthy_str (p_uri v) then [EvFetch (p_uri v)] else [].
Proof. unfold metadata_step. destruct (truthy_str (p_uri v)); reflexivity. Qed.

Lemma metadata_step_no_callback (env : Env) (v : CollectionParams) :
  filter is_callback (fst (metadata_step env v)) = [].
Proof.
  rewrite metadata_step_fetches. destruct (truthy_str (p_uri v)); reflexivity.
Qed.


(** ** Issues raised by one field reach the thrown error *)

Lemma zap_err_r {A B} (f : zres (A -> B)) (x : zres A) (j : list ZodIssue) :
  x = ZErr j -> exists k, zap f x = ZErr k /\ incl j k.
Proof.
  intros ->. destruct f as [g | i]; cbn; eexists; split; try reflexivity.
  - apply incl_refl.
  - apply incl_appr, incl_refl.
Qed.

Lemma zap_err_l {A B} (f : zres (A -> B)) (x : zres A) (j : list ZodIssue) :
  f = ZErr j -> exists k, zap f x = ZErr k /\ incl j k.
Proof.
  intros ->. destruct x as [a | i]; cbn; eexists; split; try reflexivity.
  - apply incl_refl.
  - apply incl_appl, incl_refl.
Qed.

Lemma royalty_issue (is_url : string -> bool)
    (fields : list (string * json)) (n : number) :
  lookup "royaltyBasisPoints" fields = Some (JNum n) ->
  outside 0 10000 n ->
  exists issues i,
    parse (collectionSchema is_url) (Some (JObj fields))
    = Thrown (ZodError issues)
    /\ In i issues /\ path i = [Key "royaltyBasisPoints"].
Proof.
  intros Hfield Hout.
  destruct (@z_number_range_rejects 0 10000 [Key "royaltyBasisPoints"] n Hout)
    as (i & rest & Hrej & Hpath).
  unfold parse, collectionSchema. rewrite Hfield.
  cbn [app z_optional]. rewrite Hrej.
  change (zmap (@Some number) (ZErr (i :: rest)))
    with (@ZErr (option number) (i :: rest)).
  match goal with
  | |- context [zap (zap ?f (ZErr ?j)) ?x] =>
      destruct (zap_err_r f (eq_refl (ZErr (A := option number) j)))
        as (k & Hk & Hincl);
      destruct (zap_err_l x Hk) as (k' & Hk' & Hincl')
  end.
  rewrite Hk'. exists k', i. split; [ reflexivity | ].
  split; [ | assumption ].
  apply Hincl', Hincl. left. reflexivity.
Qed.

(** ** The guard on empty content *)

(** C3. A message whose content has neither [text] nor [source] is answered
    with the empty-input report: the handler resolves to [false], the only
    thing it does is to hand the error payload and text to the callback (when
    one was supplied), and it makes no model call, no fetch and no SDK
    call. *)
Theorem empty_message_reported (env : Env) (runtime : IAgentRuntime)
    (message : Memory) (state : State) (callback : bool) :
  msg_text (msg_content message) = None ->
  msg_source (msg_content message) = None ->
  let h := handler env runtime message state callback in
  settled h = Returned false
  /\ trace h = reports callback empty_response
  /\ content empty_response = ContentError "Empty message content"
  /\ count is_model (trace h) = 0%nat
  /\ count is_fetch (trace h) = 0%nat
  /\ count is_deploy (trace h) = 0%nat
  /\ (forall ev, In ev (trace h) -> is_callback ev = true).
Proof.
  intros Htext Hsource h.
  assert (Hh : h = (reports callback empty_response, Returned false)).
  { apply handler_empty. unfold has_content. rewrite Htext, Hsource.
    reflexivity. }
  rewrite Hh. cbn [settled trace fst snd].
  repeat split; try (apply count_reports; reflexivity).
  intros ev Hin. destruct callback; cbn in Hin; [ | contradiction ].
  destruct Hin as [<- | []]. reflexivity.
Qed.

Lemma empty_message_reported_witness :
  let h := handler (sample_env (Returned good_metadata))
             (sample_runtime (full_candidate (of_Z 250)))
             empty_message sample_state true in
  settled h = Returned false
  /\ trace h = [EvCallback empty_response]
  /\ content empty_response = ContentError "Empty message content"
  /\ count is_model (trace h) = 0%nat
  /\ count is_fetch (trace h) = 0%nat
  /\ count is_deploy (trace h) = 0%nat
  /\ (forall ev, In ev (trace h) -> is_callback ev = true).
Proof.
  apply (@empty_message_reported (sample_env (Returned good_metadata))
           (sample_runtime (full_candidate (of_Z 250)))
           empty_message sample_state true); reflexivity.
Defined.

(** ** Royalty out of range *)

(** C4. When the model's candidate object carries a [royaltyBasisPoints]
    number outside [0, 10000], [collectionSchema.parse] throws a [ZodError]
    with an issue at that field, the handler reports that error through the
    callback and resolves to [false], and [deployCollection] is never
    called. *)
Theorem royalty_out_of_range_rejected (env : Env) (runtime : IAgentRuntime)
    (message : Memory) (state : State) (callback : bool)
    (m : option json) (context : string) (fields : list (string * json))
    (n : number) :
  has_content message = true ->
  getMetrics runtime (userId message) = Returned m ->
  composeContext env state collectionTemplate = Returned context ->
  generateObjectDeprecated runtime context = Returned (Some (JObj fields)) ->
  lookup "royaltyBasisPoints" fields = Some (JNum n) ->
  outside 0 10000 n ->
  let h := handler env runtime message state callback in
  exists issues i,
    parse (collectionSchema (is_url env)) (Some (JObj fields))
    = Thrown (ZodError issues)
    /\ In i issues /\ path i = [Key "royaltyBasisPoints"]
    /\ settled h = Returned false
    /\ trace h
       = [EvGetMetrics (userId message); EvModel context]
           ++ reports callback (failure_response env (ZodError issues))
    /\ count is_deploy (trace h) = 0%nat.
Proof.
  intros Hcontent Hmetrics Hcontext Hmodel Hfield Hout h.
  destruct (royalty_issue (is_url env) fields Hfield Hout)
    as (issues & i & Hparse & Hin & Hpath).
  exists issues, i.
  assert (Hh : h = (([EvGetMetrics (userId message); EvModel context]
                       ++ reports callback
                            (failure_response env (ZodError issues)))%list,
                    Returned false)).
  { apply (handler_invalid env runtime message state callback
             Hcontent Hmetrics Hcontext Hmodel Hparse). }
  rewrite Hh. cbn [settled trace fst snd].
  repeat split; try assumption.
  rewrite count_app, count_reports by reflexivity. reflexivity.
Qed.

Lemma royalty_out_of_range_rejected_witness :
  let env := sample_env (Returned good_metadata) in
  let h := handler env (sample_runtime (full_candidate (of_Z 10001)))
             sample_message sample_state true in
  exists issues i,
    parse (collectionSchema (is_url env)) (Some (full_candidate (of_Z 10001)))
    = Thrown (ZodError issues)
    /\ In i issues /\ path i = [Key "royaltyBasisPoints"]
    /\ settled h = Returned false
    /\ trace h
       = [EvGetMetrics "test-user"; EvModel collectionTemplate]
           ++ reports true (failure_response env (ZodError issues))
    /\ count is_deploy (trace h) = 0%nat.
Proof.
  intros env.
  apply (@royalty_out_of_range_rejected env
           (sample_runtime (full_candidate (of_Z 10001)))
           sample_message sample_state true None collectionTemplate _
           (of_Z 10001)); try reflexivity.
  right. reflexivity.
Defined.

(** ** No exception leaves the handler *)


(** ** How often the outside world is called *)

(** A URI that passed the schema is not the empty string, so the metadata
    check is not skipped for it. *)
Lemma parsed_uri_truthy (env : Env) (data : option json)
    (v : CollectionParams) :
  is_url env EmptyString = false ->
  parse (collectionSchema (is_url env)) data = Returned v ->
  truthy_str (p_uri v) = true.
Proof.
  intros Hempty Hparse. apply parse_ok, collectionSchema_ok in Hparse.
  destruct Hparse as (fields & _ & _ & _ & _ & Hurl & _).
  destruct (p_uri v); [ congruence | reflexivity ].
Qed.








(** ** The database lookup has no influence *)

(** C9. Two runtimes that differ only in what [getMetrics] returns give the
    same run: the same calls with the same arguments, the same callback
    payload and the same result.  [userMetrics] is computed and never read. *)
Theorem metrics_never_read (env : Env) (runtime : IAgentRuntime)
    (g1 g2 : string -> outcome (option json))
    (message : Memory) (state : State) (callback : bool)
    (m1 m2 : option json) :
  g1 (userId message) = Returned m1 ->
  g2 (userId message) = Returned m2 ->
  handler env (with_getMetrics runtime g1) message state callback
  = handler env (with_getMetrics runtime g2) message state callback.
Proof.
  intros H1 H2. unfold handler, with_getMetrics.
  cbn [getMetrics getSetting generateObjectDeprecated].
  rewrite H1, H2. reflexivity.
Qed.

Lemma metrics_never_read_witness :
  let rt := sample_runtime (full_candidate (of_Z 250)) in
  handler (sample_env (Returned good_metadata))
    (with_getMetrics rt (fun _ => Returned None))
    sample_message sample_state true
  = handler (sample_env (Returned good_metadata))
      (with_getMetrics rt
         (fun _ => Returned (Some (JObj [("defaultRoyalty", JNum (of_Z 0));
                                         ("defaultCreator", JStr "OTHER")]))))
      sample_message sample_state true.
Proof.
  intros rt.
  apply (@metrics_never_read (sample_env (Returned good_metadata)) rt
           (fun _ => Returned None)
           (fun _ => Returned (Some (JObj [("defaultRoyalty", JNum (of_Z 0));
                                           ("defaultCreator", JStr "OTHER")])))
           sample_message sample_state true None
           (Some (JObj [("defaultRoyalty", JNum (of_Z 0));
                        ("defaultCreator", JStr "OTHER")])));
    reflexivity.
Defined.

(** ** The request that reaches the SDK *)

Section Deploys.

Variable env : Env.
Variable runtime : IAgentRuntime.
Variable message : Memory.
Variable state : State.
Variable callback : bool.
Variable m : option json.
Variable context : string.
Variable data : option json.
Variable v : CollectionParams.
Variable kit : SolanaAgentKit.
Hypothesis Hcontent : has_content message = true.
Hypothesis Hmetrics : getMetrics runtime (userId message) = Returned m.
Hypothesis Hcontext :
  composeContext env state collectionTemplate = Returned context.
Hypothesis Hmodel : generateObjectDeprecated runtime context = Returned data.
Hypothesis Hparse : parse (collectionSchema (is_url env)) data = Returned v.
Hypothesis Hkit : new_kit env runtime = Returned kit.

(** When every step before it succeeds, exactly one request is sent, and
    the handler resolves to [true] when the SDK resolves. *)
Lemma handler_deploys :
  let h := handler env runtime message state callback in
  let options := request runtime v (snd (metadata_step env v)) kit in
  (exists pre rest,
      trace h = pre ++ EvDeploy options :: rest
      /\ count is_deploy pre = 0%nat /\ count is_deploy rest = 0%nat)
  /\ (forall r, deployCollection kit options = Returned r ->
      settled h = Returned true)
  /\ (forall e, deployCollection kit options = Thrown e ->
      settled h = Returned false).
Proof.
  intros h options. subst h.
  rewrite (handler_run env runtime message state callback
             Hcontent Hmetrics Hcontext Hmodel Hparse Hkit).
  cbv zeta. fold options. cbn [trace settled fst snd]. split.
  - exists ([EvGetMetrics (userId message); EvModel context]
              ++ fst (metadata_step env v) ++ [new_kit_event runtime]).
    eexists. split.
    + rewrite <- !app_assoc. cbn [app]. reflexivity.
    + split.
      * rewrite !count_app, metadata_step_fetches.
        destruct (truthy_str (p_uri v)); reflexivity.
      * destruct (deployCollection kit options);
          apply count_reports; reflexivity.
  - split; intros r Hr; rewrite Hr; reflexivity.
Qed.

End Deploys.

(** What [a || b] does on a setting. *)
Lemma default_uri_cases (runtime : IAgentRuntime) :
  (forall s, getSetting runtime "DEFAULT_NFT_METADATA_URI" = Some s ->
             s <> EmptyString -> default_uri runtime = s)
  /\ (getSetting runtime "DEFAULT_NFT_METADATA_URI" = None
      \/ getSetting runtime "DEFAULT_NFT_METADATA_URI" = Some EmptyString ->
      default_uri runtime = fallback_metadata_uri).
Proof.
  unfold default_uri, or_string. split.
  - intros s -> Hs. destruct s; [ congruence | reflexivity ].
  - intros [-> | ->]; reflexivity.
Qed.

Lemma unusable_not_complete (doc : outcome json) :
  metadata_unusable doc -> complete_metadata doc = false.
Proof.
  destruct doc as [[ | b | n | s | items | fields ] | e]; cbn;
    try reflexivity.
  intros (k & Hk & Hnone).
  destruct Hk as [<- | [<- | [<- | []]]]; rewrite Hnone; cbn;
    rewrite ?andb_false_r; reflexivity.
Qed.

(** C5. For a candidate that passed the schema, when the metadata fetch
    throws or the document lacks one of [name], [description], [image], the
    run does not stop: once the SDK instance is built, the request is sent
    with [uri] replaced by the [DEFAULT_NFT_METADATA_URI] setting, or by the
    hardcoded URI when the setting is empty, and the handler resolves to
    [true] when the deployment resolves. *)
Theorem metadata_failure_falls_back (env : Env) (runtime : IAgentRuntime)
    (message : Memory) (state : State) (callback : bool)
    (m : option json) (context : string) (data : option json)
    (v : CollectionParams) (kit : SolanaAgentKit) :
  has_content message = true ->
  getMetrics runtime (userId message) = Returned m ->
  composeContext env state collectionTemplate = Returned context ->
  generateObjectDeprecated runtime context = Returned data ->
  parse (collectionSchema (is_url env)) data = Returned v ->
  metadata_unusable (fetch_json env (p_uri v)) ->
  new_kit env runtime = Returned kit ->
  let h := handler env runtime message state callback in
  exists options,
    (exists pre rest,
        trace h = pre ++ EvDeploy options :: rest
        /\ count is_deploy pre = 0%nat /\ count is_deploy rest = 0%nat)
    /\ uri options = default_uri runtime
    /\ (forall s, getSetting runtime "DEFAULT_NFT_METADATA_URI" = Some s ->
                  s <> EmptyString -> uri options = s)
    /\ (getSetting runtime "DEFAULT_NFT_METADATA_URI" = None
        \/ getSetting runtime "DEFAULT_NFT_METADATA_URI" = Some EmptyString ->
        uri options = fallback_metadata_uri)
    /\ name options = p_name v
    /\ (forall r, deployCollection kit options = Returned r ->
        settled h = Returned true).
Proof.
  intros Hcontent Hmetrics Hcontext Hmodel Hparse Hbad Hkit h.
  destruct (handler_deploys env runtime message state callback
              Hcontent Hmetrics Hcontext Hmodel Hparse Hkit)
    as (Htrace & Htrue & _).
  exists (request runtime v (snd (metadata_step env v)) kit).
  assert (Huri : uri (request runtime v (snd (metadata_step env v)) kit)
                 = default_uri runtime).
  { unfold request, metadata_step. cbn [uri].
    destruct (truthy_str (p_uri v)); cbn [snd]; [ | reflexivity ].
    rewrite (unusable_not_complete _ Hbad). reflexivity. }
  destruct (default_uri_cases runtime) as [Hset Hunset].
  split; [ exact Htrace | ]. split; [ exact Huri | ].
  split; [ intros s Hs Hne; rewrite Huri; apply Hset; assumption | ].
  split; [ intros Hs; rewrite Huri; apply Hunset; assumption | ].
  split; [ reflexivity | exact Htrue ].
Qed.

Lemma metadata_failure_falls_back_witness :
  let env := sample_env (Thrown (TypeError "fetch failed")) in
  let h := handler env (sample_runtime candidate_without_creators)
             sample_message sample_state true in
  exists options,
    (exists pre rest,
        trace h = pre ++ EvDeploy options :: rest
        /\ count is_deploy pre = 0%nat /\ count is_deploy rest = 0%nat)
    /\ uri options = default_uri (sample_runtime candidate_without_creators)
    /\ (forall s, sample_settings "DEFAULT_NFT_METADATA_URI" = Some s ->
                  s <> EmptyString -> uri options = s)
    /\ (sample_settings "DEFAULT_NFT_METADATA_URI" = None
        \/ sample_settings "DEFAULT_NFT_METADATA_URI" = Some EmptyString ->
        uri options = fallback_metadata_uri)
    /\ name options = "Test Collection"
    /\ (forall r, deployCollection sample_kit options = Returned r ->
        settled h = Returned true).
Proof.
  intros env.
  apply (@metadata_failure_falls_back env
           (sample_runtime candidate_without_creators)
           sample_message sample_state true None collectionTemplate
           (Some candidate_without_creators)
           {| p_name := "Test Collection"; p_uri := sample_uri;
              p_royaltyBasisPoints := Some (of_Z 500);
              p_creators := None |}
           sample_kit); try reflexivity.
Defined.

(** ** Pass-through of a fully specified candidate *)

(** A candidate with all four fields, a usable metadata document and a
    non-zero royalty reaches the SDK with its own values. *)
Lemma full_candidate_forwarded (env : Env) (runtime : IAgentRuntime)
    (v : CollectionParams) (kit : SolanaAgentKit)
    (n : number) (l : list Creator) :
  truthy_str (p_uri v) = true ->
  complete_metadata (fetch_json env (p_uri v)) = true ->
  p_royaltyBasisPoints v = Some n ->
  truthy_num n = true ->
  p_creators v = Some l ->
  request runtime v (snd (metadata_step env v)) kit
  = {| name := p_name v; uri := p_uri v;
       royaltyBasisPoints := n; creators := l |}.
Proof.
  intros Huri Hdoc Hroyalty Hn Hcreators.
  unfold request, metadata_step. rewrite Huri. cbn [snd].
  rewrite Hdoc, Hroyalty, Hcreators. cbn [or_number or_array].
  rewrite Hn. reflexivity.
Qed.

(** C1, at royalty 0.  The candidate is valid: the schema accepts it with
    [royaltyBasisPoints = 0] and the metadata document is complete.  The
    request that reaches [deployCollection] carries the candidate's name,
    URI and creators, but [royaltyBasisPoints = 500]. *)
Theorem zero_royalty_replaced :
  let env := sample_env (Returned good_metadata) in
  let candidate := full_candidate (of_Z 0) in
  let h := handler env (sample_runtime candidate)
             sample_message sample_state true in
  parse (collectionSchema (is_url env)) (Some candidate)
  = Returned {| p_name := "Test Collection"; p_uri := sample_uri;
                p_royaltyBasisPoints := Some (of_Z 0);
                p_creators :=
                  Some [ {| address := "CREATOR1"; percentage := of_Z 60 |};
                         {| address := "CREATOR2"; percentage := of_Z 40 |} ] |}
  /\ complete_metadata (fetch_json env sample_uri) = true
  /\ In (EvDeploy
           {| name := "Test Collection"; uri := sample_uri;
              royaltyBasisPoints := of_Z 500;
              creators :=
                [ {| address := "CREATOR1"; percentage := of_Z 60 |};
                  {| address := "CREATOR2"; percentage := of_Z 40 |} ] |})
        (trace h)
  /\ count is_deploy (trace h) = 1%nat
  /\ settled h = Returned true.
Proof.
  cbv zeta. split; [ reflexivity | ]. split; [ reflexivity | ].
  split; [ | split; reflexivity ].
  cbn. do 4 right. left. reflexivity.
Qed.

(** ** The default creator *)

(** C2 as stated fails: the default creator's address is the wallet address
    of the SDK instance, whatever the [SOLANA_PUBLIC_KEY] setting says. *)
Lemma default_creator_is_not_the_setting :
  let rt := runtime_with_public_key "PUBKEY1" candidate_without_creators in
  let h := handler (sample_env (Returned good_metadata)) rt
             sample_message sample_state true in
  getSetting rt "SOLANA_PUBLIC_KEY" = Some "PUBKEY1"
  /\ In (EvDeploy
           {| name := "Test Collection"; uri := sample_uri;
              royaltyBasisPoints := of_Z 500;
              creators :=
                [ {| address := "WALLET1"; percentage := of_Z 100 |} ] |})
        (trace h)
  /\ ~ (forall o, In (EvDeploy o) (trace h) ->
          exists c, creators o = [c]
                    /\ percentage c = of_Z 100
                    /\ getSetting rt "SOLANA_PUBLIC_KEY" = Some (address c)).
Proof.
  cbv zeta. split; [ reflexivity | ].
  assert (Hin : In (EvDeploy
           {| name := "Test Collection"; uri := sample_uri;
              royaltyBasisPoints := of_Z 500;
              creators :=
                [ {| address := "WALLET1"; percentage := of_Z 100 |} ] |})
        (trace (handler (sample_env (Returned good_metadata))
                  (runtime_with_public_key "PUBKEY1"
                     candidate_without_creators)
                  sample_message sample_state true))).
  { cbn. do 4 right. left. reflexivity. }
  split; [ exact Hin | ].
  intros H. destruct (H _ Hin) as (c & Hc & _ & Hkey).
  cbn in Hc, Hkey. injection Hc as <-. discriminate Hkey.
Qed.

(** C2, as the code has it.  When the validated candidate has no [creators],
    the one request that is sent names exactly one creator, at 100 percent,
    whose address is the [wallet_address] of the SDK instance built from the
    [SOLANA_PRIVATE_KEY], [SOLANA_RPC_URL] and [OPENAI_API_KEY] settings. *)
Theorem default_creator_is_kit_wallet (env : Env) (runtime : IAgentRuntime)
    (message : Memory) (state : State) (callback : bool)
    (m : option json) (context : string) (data : option json)
    (v : CollectionParams) (kit : SolanaAgentKit) :
  has_content message = true ->
  getMetrics runtime (userId message) = Returned m ->
  composeContext env state collectionTemplate = Returned context ->
  generateObjectDeprecated runtime context = Returned data ->
  parse (collectionSchema (is_url env)) data = Returned v ->
  p_creators v = None ->
  newSolanaAgentKit env (getSetting runtime "SOLANA_PRIVATE_KEY")
    (getSetting runtime "SOLANA_RPC_URL")
    (getSetting runtime "OPENAI_API_KEY") = Returned kit ->
  let h := handler env runtime message state callback in
  exists options pre rest,
    trace h = pre ++ EvDeploy options :: rest
    /\ count is_deploy pre = 0%nat /\ count is_deploy rest = 0%nat
    /\ creators options
       = [ {| address := wallet_address kit; percentage := of_Z 100 |} ].
Proof.
  intros Hcontent Hmetrics Hcontext Hmodel Hparse Hnone Hkit h.
  destruct (handler_deploys env runtime message state callback
              Hcontent Hmetrics Hcontext Hmodel Hparse Hkit)
    as ((pre & rest & Htrace & Hpre & Hrest) & _).
  exists (request runtime v (snd (metadata_step env v)) kit), pre, rest.
  repeat split; try assumption.
  unfold request. cbn [creators]. rewrite Hnone. reflexivity.
Qed.

Lemma default_creator_is_kit_wallet_witness :
  let rt := runtime_with_public_key "PUBKEY1" candidate_without_creators in
  let h := handler (sample_env (Returned good_metadata)) rt
             sample_message sample_state true in
  exists options pre rest,
    trace h = pre ++ EvDeploy options :: rest
    /\ count is_deploy pre = 0%nat /\ count is_deploy rest = 0%nat
    /\ creators options
       = [ {| address := "WALLET1"; percentage := of_Z 100 |} ].
Proof.
  intros rt.
  apply (@default_creator_is_kit_wallet (sample_env (Returned good_metadata))
           rt sample_message sample_state true None collectionTemplate
           (Some candidate_without_creators)
           {| p_name := "Test Collection"; p_uri := sample_uri;
              p_royaltyBasisPoints := Some (of_Z 500);
              p_creators := None |}
           sample_kit); reflexivity.
Defined.

(** ** The royalty the schema lets through *)

(** C8 as stated fails: the schema has no integer check, a fractional
    royalty is accepted. *)
Lemma fractional_royalty_accepted :
  let candidate := full_candidate (Finite (501 # 2)) in
  (exists v,
      parse (collectionSchema sample_is_url) (Some candidate) = Returned v
      /\ p_royaltyBasisPoints v = Some (Finite (501 # 2)))
  /\ ~ is_integer (Finite (501 # 2)).
Proof.
  cbv zeta. split.
  - eexists. split; reflexivity.
  - intros [z Hz]. unfold Qeq in Hz. cbn in Hz. lia.
Qed.

(** C8, as the code has it.  A [royaltyBasisPoints] that a candidate
    supplies and the schema accepts is a finite number between 0 and 10000,
    bounds included; it need not be an integer. *)
Theorem accepted_royalty_in_range (is_url : string -> bool)
    (data : option json) (v : CollectionParams) (n : number) :
  parse (collectionSchema is_url) data = Returned v ->
  p_royaltyBasisPoints v = Some n ->
  exists q, n = Finite q /\ 0 <= q /\ q <= 10000.
Proof.
  intros Hparse Hn. apply parse_ok, collectionSchema_ok in Hparse.
  destruct Hparse as (fields & _ & _ & _ & _ & _ & Hroyalty & _).
  destruct Hroyalty as [[_ Hnone] | (n' & _ & Hsome & Hin)]; [ congruence | ].
  rewrite Hsome in Hn. injection Hn as ->.
  destruct n as [q | | | ]; cbn in Hin; try contradiction.
  exists q. split; [ reflexivity | exact Hin ].
Qed.

Lemma accepted_royalty_in_range_witness :
  exists q, Finite (501 # 2) = Finite q /\ 0 <= q /\ q <= 10000.
Proof.
  apply (@accepted_royalty_in_range sample_is_url
           (Some (full_candidate (Finite (501 # 2))))
           {| p_name := "Test Collection"; p_uri := sample_uri;
              p_royaltyBasisPoints := Some (Finite (501 # 2));
              p_creators :=
                Some [ {| address := "CREATOR1"; percentage := of_Z 60 |};
                       {| address := "CREATOR2"; percentage := of_Z 40 |} ] |}
           (Finite (501 # 2))); reflexivity.
Defined.

(** ** An empty list of creators *)

Lemma lookup_remove_key_same (k : string) (fields : list (string * json)) :
  lookup k (remove_key k fields) = None.
Proof.
  induction fields as [ | [k' x] rest IH ]; cbn; [ reflexivity | ].
  destruct (String.eqb k k') eqn:E; [ assumption | ].
  cbn. rewrite E. assumption.
Qed.

Lemma lookup_remove_key_other (k k' : string)
    (fields : list (string * json)) :
  k <> k' -> lookup k (remove_key k' fields) = lookup k fields.
Proof.
  intros Hne. induction fields as [ | [a x] rest IH ]; cbn; [ reflexivity | ].
  destruct (String.eqb k' a) eqn:E'.
  - apply String.eqb_eq in E'. subst a.
    apply String.eqb_neq in Hne. rewrite Hne. assumption.
  - cbn. destruct (String.eqb k a); [ reflexivity | assumption ].
Qed.

(** An empty [creators] array raises no issue: a candidate that is valid
    without the field is valid with it, and the parsed list is empty. *)
Lemma parse_empty_creators (is_url : string -> bool)
    (fields : list (string * json)) (v0 : CollectionParams) :
  lookup "creators" fields = Some (JArr []) ->
  parse (collectionSchema is_url)
    (Some (JObj (remove_key "creators" fields))) = Returned v0 ->
  parse (collectionSchema is_url) (Some (JObj fields))
  = Returned (with_creators v0 (Some [])).
Proof.
  intros Hcreators. unfold parse, collectionSchema.
  rewrite lookup_remove_key_same.
  rewrite !lookup_remove_key_other by discriminate.
  rewrite Hcreators.
  change (z_optional (z_array (creatorSchema is_url))
            ([] ++ [Key "creators"]) None)
    with (@ZOk (option (list Creator)) None).
  change (z_optional (z_array (creatorSchema is_url))
            ([] ++ [Key "creators"]) (Some (JArr [])))
    with (@ZOk (option (list Creator)) (Some [])).
  repeat match goal with
         | |- context [z_string ?f ?c ?p ?x] => destruct (z_string f c p x)
         end;
    match goal with
    | |- context [z_optional ?s ?p ?x] => destruct (z_optional s p x)
    end; cbn [zmap zap]; intros H; try discriminate H.
  injection H as <-. reflexivity.
Qed.

(** C10. A candidate whose [creators] is the empty array passes the schema
    whenever its other fields do, with an empty list of creators, and that
    empty list is what the request carries: the single default creator is
    not substituted for it. *)
Theorem empty_creators_forwarded (env : Env) (runtime : IAgentRuntime)
    (message : Memory) (state : State) (callback : bool)
    (m : option json) (context : string) (fields : list (string * json))
    (v0 : CollectionParams) (kit : SolanaAgentKit) :
  has_content message = true ->
  getMetrics runtime (userId message) = Returned m ->
  composeContext env state collectionTemplate = Returned context ->
  generateObjectDeprecated runtime context = Returned (Some (JObj fields)) ->
  lookup "creators" fields = Some (JArr []) ->
  parse (collectionSchema (is_url env))
    (Some (JObj (remove_key "creators" fields))) = Returned v0 ->
  new_kit env runtime = Returned kit ->
  let h := handler env runtime message state callback in
  parse (collectionSchema (is_url env)) (Some (JObj fields))
  = Returned (with_creators v0 (Some []))
  /\ exists options pre rest,
       trace h = pre ++ EvDeploy options :: rest
       /\ count is_deploy pre = 0%nat /\ count is_deploy rest = 0%nat
       /\ creators options = [].
Proof.
  intros Hcontent Hmetrics Hcontext Hmodel Hcreators Hrest Hkit h.
  pose proof (parse_empty_creators (is_url env) fields Hcreators Hrest)
    as Hparse.
  split; [ exact Hparse | ].
  destruct (handler_deploys env runtime message state callback
              Hcontent Hmetrics Hcontext Hmodel Hparse Hkit)
    as ((pre & rest & Htrace & Hpre & Hpost) & _).
  exists (request runtime (with_creators v0 (Some []))
            (snd (metadata_step env (with_creators v0 (Some [])))) kit),
    pre, rest.
  repeat split; assumption || reflexivity.
Qed.

Lemma empty_creators_forwarded_witness :
  let env := sample_env (Returned good_metadata) in
  let h := handler env (sample_runtime candidate_no_creator)
             sample_message sample_state true in
  parse (collectionSchema (is_url env)) (Some candidate_no_creator)
  = Returned {| p_name := "Test Collection"; p_uri := sample_uri;
                p_royaltyBasisPoints := Some (of_Z 500);
                p_creators := Some [] |}
  /\ exists options pre rest,
       trace h = pre ++ EvDeploy options :: rest
       /\ count is_deploy pre = 0%nat /\ count is_deploy rest = 0%nat
       /\ creators options = [].
Proof.
  intros env.
  apply (@empty_creators_forwarded env (sample_runtime candidate_no_creator)
           sample_message sample_state true None collectionTemplate _
           {| p_name := "Test Collection"; p_uri := sample_uri;
              p_royaltyBasisPoints := Some (of_Z 500);
              p_creators := None |}
           sample_kit); reflexivity.
Defined.

(** ** Failures before the request *)

Section EarlyFailures.

Variable env : Env.
Variable runtime : IAgentRuntime.
Variable message : Memory.
Variable state : State.
Variable callback : bool.
Hypothesis Hcontent : has_content message = true.

Lemma guard_passed :
  negb (truthy_ostr (msg_text (msg_content message)))
  && negb (truthy_ostr (msg_source (msg_content message))) = false.
Proof.
  unfold has_content in Hcontent. rewrite <- negb_orb, Hcontent. reflexivity.
Qed.

Lemma handler_no_metrics (e : Error) :
  getMetrics runtime (userId message) = Thrown e ->
  handler env runtime message state callback
  = ([EvGetMetrics (userId message)]
       ++ reports callback (failure_response env e),
     Returned false).
Proof.
  intros Hmetrics. unfold handler. rewrite guard_passed, Hmetrics.
  destruct callback; reflexivity.
Qed.

(** X1. When the database lookup throws, the handler stops there: the model
    is not called, nothing is fetched, the SDK is not touched, the error's
    message is reported and the result is [false]. *)
Theorem database_failure_stops (e : Error) :
  getMetrics runtime (userId message) = Thrown e ->
  let h := handler env runtime message state callback in
  settled h = Returned false
  /\ trace h
     = [EvGetMetrics (userId message)]
         ++ reports callback
              {| text := ("Failed to deploy collection: "
                          ++ error_message env e)%string;
                 content := ContentError (error_message env e) |}
  /\ count is_model (trace h) = 0%nat
  /\ count is_fetch (trace h) = 0%nat
  /\ count is_new_kit (trace h) = 0%nat
  /\ count is_deploy (trace h) = 0%nat.
Proof.
  intros Hmetrics h.
  assert (Hh : h = ([EvGetMetrics (userId message)]
                      ++ reports callback (failure_response env e),
                    Returned false)).
  { apply handler_no_metrics. assumption. }
  rewrite Hh. cbn [settled trace fst snd].
  repeat split; rewrite count_app, count_reports by reflexivity; reflexivity.
Qed.

(** X2. When the model call throws, the candidate never exists: no fetch, no
    SDK instance and no deployment request follow, and the error's message
    is reported. *)
Theorem model_failure_stops (m : option json) (context : string) (e : Error) :
  getMetrics runtime (userId message) = Returned m ->
  composeContext env state collectionTemplate = Returned context ->
  generateObjectDeprecated runtime context = Thrown e ->
  let h := handler env runtime message state callback in
  settled h = Returned false
  /\ trace h
     = [EvGetMetrics (userId message); EvModel context]
         ++ reports callback
              {| text := ("Failed to deploy collection: "
                          ++ error_message env e)%string;
                 content := ContentError (error_message env e) |}
  /\ count is_fetch (trace h) = 0%nat
  /\ count is_new_kit (trace h) = 0%nat
  /\ count is_deploy (trace h) = 0%nat.
Proof.
  intros Hmetrics Hcontext Hmodel h.
  assert (Hh : h = ([EvGetMetrics (userId message); EvModel context]
                      ++ reports callback (failure_response env e),
                    Returned false)).
  { subst h. unfold handler. rewrite guard_passed, Hmetrics. cbn.
    rewrite Hcontext. cbn. rewrite Hmodel. destruct callback; reflexivity. }
  rewrite Hh. cbn [settled trace fst snd].
  repeat split; rewrite count_app, count_reports by reflexivity; reflexivity.
Qed.

(** X3. Whatever makes the schema reject the candidate, the handler stops at
    the validation: it fetches nothing, never builds the SDK instance (the
    private key is not handed over) and sends no request. *)
Theorem rejected_candidate_stops (m : option json) (context : string)
    (data : option json) (e : Error) :
  getMetrics runtime (userId message) = Returned m ->
  composeContext env state collectionTemplate = Returned context ->
  generateObjectDeprecated runtime context = Returned data ->
  parse (collectionSchema (is_url env)) data = Thrown e ->
  let h := handler env runtime message state callback in
  (exists issues, e = ZodError issues)
  /\ settled h = Returned false
  /\ trace h
     = [EvGetMetrics (userId message); EvModel context]
         ++ reports callback (failure_response env e)
  /\ count is_fetch (trace h) = 0%nat
  /\ count is_new_kit (trace h) = 0%nat
  /\ count is_deploy (trace h) = 0%nat.
Proof.
  intros Hmetrics Hcontext Hmodel Hparse h.
  assert (Hzod : exists issues, e = ZodError issues).
  { unfold parse in Hparse.
    destruct (collectionSchema (is_url env) [] data) as [v | issues];
      [ discriminate | ].
    injection Hparse as <-. exists issues. reflexivity. }
  destruct Hzod as [issues ->]. split; [ exists issues; reflexivity | ].
  assert (Hh : h = ([EvGetMetrics (userId message); EvModel context]
                      ++ reports callback
                           (failure_response env (ZodError issues)),
                    Returned false)).
  { apply (handler_invalid env runtime message state callback
             Hcontent Hmetrics Hcontext Hmodel Hparse). }
  rewrite Hh. cbn [settled trace fst snd].
  repeat split; rewrite count_app, count_reports by reflexivity; reflexivity.
Qed.

End EarlyFailures.

Lemma database_failure_stops_witness :
  let env := sample_env (Returned good_metadata) in
  let rt := mockRuntime (fun _ => None)
              (fun _ => Returned (Some (full_candidate (of_Z 250)))) in
  let h := handler env rt testMessage (JObj []) true in
  settled h = Returned false
  /\ trace h
     = [EvGetMetrics "test-user"]
         ++ reports true
              {| text := ("Failed to deploy collection: "
                          ++ error_message env
                               (TypeError
                                  "Cannot read properties of undefined (reading 'getMetrics')"))%string;
                 content :=
                   ContentError
                     (error_message env
                        (TypeError
                           "Cannot read properties of undefined (reading 'getMetrics')")) |}
  /\ count is_model (trace h) = 0%nat
  /\ count is_fetch (trace h) = 0%nat
  /\ count is_new_kit (trace h) = 0%nat
  /\ count is_deploy (trace h) = 0%nat.
Proof.
  intros env rt.
  apply (@database_failure_stops env rt testMessage (JObj []) true eq_refl
           (TypeError
              "Cannot read properties of undefined (reading 'getMetrics')")).
  reflexivity.
Defined.

Lemma model_failure_stops_witness :
  let env := sample_env (Returned good_metadata) in
  let rt := {| getSetting := sample_settings;
               getMetrics := fun _ => Returned None;
               generateObjectDeprecated := fun _ =>
                 Thrown (OtherError "model unavailable") |} in
  let h := handler env rt sample_message sample_state true in
  settled h = Returned false
  /\ trace h
     = [EvGetMetrics "test-user"; EvModel collectionTemplate]
         ++ reports true
              {| text := ("Failed to deploy collection: "
                          ++ error_message env
                               (OtherError "model unavailable"))%string;
                 content :=
                   ContentError
                     (error_message env (OtherError "model unavailable")) |}
  /\ count is_fetch (trace h) = 0%nat
  /\ count is_new_kit (trace h) = 0%nat
  /\ count is_deploy (trace h) = 0%nat.
Proof.
  intros env rt.
  apply (@model_failure_stops env rt sample_message sample_state true eq_refl
           None collectionTemplate (OtherError "model unavailable"));
    reflexivity.
Defined.

Lemma rejected_candidate_stops_witness :
  let env := sample_env (Returned good_metadata) in
  let e := ZodError [ {| code := invalid_type; path := []; custom := None |} ] in
  let h := handler env (sample_runtime JNull) sample_message sample_state
             true in
  (exists issues, e = ZodError issues)
  /\ settled h = Returned false
  /\ trace h
     = [EvGetMetrics "test-user"; EvModel collectionTemplate]
         ++ reports true (failure_response env e)
  /\ count is_fetch (trace h) = 0%nat
  /\ count is_new_kit (trace h) = 0%nat
  /\ count is_deploy (trace h) = 0%nat.
Proof.
  intros env e.
  apply (@rejected_candidate_stops env (sample_runtime JNull) sample_message
           sample_state true eq_refl None collectionTemplate (Some JNull) e);
    reflexivity.
Defined.

(** X4. The test of the package cannot meet its expectations.  Its mock
    runtime has no database adapter, so whatever the model, the network and
    the SDK would do, the handler resolves to [false] after the failed
    lookup and the callback receives an error payload, not a success. *)
Theorem package_test_resolves_false (env : Env)
    (process_env : string -> option string)
    (model : string -> outcome (option json)) :
  let h := handler env (mockRuntime process_env model) testMessage (JObj [])
             true in
  settled h = Returned false
  /\ exists r msg,
       trace h = [EvGetMetrics "test-user"; EvCallback r]
       /\ content r = ContentError msg.
Proof.
  intros h. subst h.
  rewrite (@handler_no_metrics env (mockRuntime process_env model)
             testMessage (JObj [])
             true eq_refl
             (TypeError
                "Cannot read properties of undefined (reading 'getMetrics')")
             eq_refl).
  split; [ reflexivity | ].
  do 2 eexists. split; reflexivity.
Qed.

(** ** The schema, read both ways *)

Lemma within_accepts (lo hi : Z) (p : list seg) (n : number) :
  within lo hi n ->
  z_number [num_min (of_Z lo); num_max (of_Z hi)] p (Some (JNum n)) = ZOk n.
Proof.
  destruct n as [q | | | ]; cbn [within]; try contradiction.
  intros [Hlo Hhi]. unfold z_number.
  cbn [flat_map run_number_check]. unfold num_gt, num_lt, of_Z.
  apply Qle_bool_iff in Hlo, Hhi. rewrite Hlo, Hhi. reflexivity.
Qed.

Lemma reads_creator_accepts (is_url : string -> bool) (p : list seg)
    (item : json) (c : Creator) :
  reads_creator item c -> creatorSchema is_url p (Some item) = ZOk c.
Proof.
  intros (fields & -> & Haddress & Hpercentage & Hin).
  unfold creatorSchema. rewrite Haddress, Hpercentage.
  rewrite (@within_accepts 0 100 _ _ Hin). destruct c. reflexivity.
Qed.

Lemma parse_items_accepts (is_url : string -> bool) (p : list seg)
    (items : list json) (l : list Creator) :
  Forall2 reads_creator items l ->
  forall i, parse_items (creatorSchema is_url) p i items = ZOk l.
Proof.
  induction 1 as [ | item c items l Hc _ IH ]; intros i; cbn [parse_items].
  - reflexivity.
  - rewrite (@reads_creator_accepts is_url _ _ _ Hc), IH. reflexivity.
Qed.

(** X5. The schema accepts exactly the well-formed candidates and returns
    what they say: a non-empty string [name], a string [uri] that is a URL,
    an absent or in-range [royaltyBasisPoints], an absent [creators] or an
    array of objects with a string [address] and a [percentage] in
    [0, 100]. *)
Theorem schema_accepts_exactly_well_formed (is_url : string -> bool)
    (fields : list (string * json)) (v : CollectionParams) :
  parse (collectionSchema is_url) (Some (JObj fields)) = Returned v
  <-> well_formed is_url fields v.
Proof.
  split.
  - intros H. apply parse_ok, collectionSchema_ok in H.
    destruct H as (fields' & Heq & Hname & Hne & Huri & Hurl & Hr & Hc).
    injection Heq as <-. repeat split; assumption.
  - intros (Hname & Hne & Huri & Hurl & Hr & Hc).
    unfold parse, collectionSchema. rewrite Hname, Huri.
    assert (Hn : z_string is_url [str_min 1 (Some "Name is required")]
                   ([] ++ [Key "name"]) (Some (JStr (p_name v)))
                 = ZOk (p_name v)).
    { unfold z_string. cbn [flat_map run_string_check].
      destruct (p_name v); [ congruence | reflexivity ]. }
    assert (Hu : z_string is_url [str_url (Some "URI must be a valid URL")]
                   ([] ++ [Key "uri"]) (Some (JStr (p_uri v)))
                 = ZOk (p_uri v)).
    { unfold z_string. cbn [flat_map run_string_check]. rewrite Hurl.
      reflexivity. }
    rewrite Hn, Hu.
    assert (Hro : z_optional (z_number [num_min (of_Z 0); num_max (of_Z 10000)])
                    ([] ++ [Key "royaltyBasisPoints"])
                    (lookup "royaltyBasisPoints" fields)
                  = ZOk (p_royaltyBasisPoints v)).
    { destruct Hr as [[-> ->] | (n & -> & -> & Hin)]; [ reflexivity | ].
      cbn [z_optional]. rewrite (@within_accepts 0 10000 _ _ Hin).
      reflexivity. }
    assert (Hcs : z_optional (z_array (creatorSchema is_url))
                    ([] ++ [Key "creators"]) (lookup "creators" fields)
                  = ZOk (p_creators v)).
    { destruct Hc as [[-> ->] | (items & l & -> & -> & Hall)];
        [ reflexivity | ].
      cbn [z_optional z_array].
      rewrite (@parse_items_accepts is_url _ _ _ Hall). reflexivity. }
    rewrite Hro, Hcs. destruct v. reflexivity.
Qed.

(** X6. The schema is not strict: only the four keys it names are read.
    Two candidate objects that agree on them, whatever else they contain,
    give the same parameters or the same error. *)
Theorem unknown_keys_ignored (is_url : string -> bool)
    (fields fields' : list (string * json)) :
  (forall k, In k schema_keys -> lookup k fields = lookup k fields') ->
  parse (collectionSchema is_url) (Some (JObj fields))
  = parse (collectionSchema is_url) (Some (JObj fields')).
Proof.
  intros H. unfold parse, collectionSchema.
  rewrite (H "name"), (H "uri"), (H "royaltyBasisPoints"), (H "creators");
    [ reflexivity | .. ]; cbn; tauto.
Qed.

Lemma unknown_keys_ignored_witness :
  parse (collectionSchema sample_is_url)
    (Some (JObj [("name", JStr "Test Collection"); ("uri", JStr sample_uri)]))
  = parse (collectionSchema sample_is_url)
      (Some (JObj [("symbol", JStr "TST"); ("name", JStr "Test Collection");
                   ("uri", JStr sample_uri); ("decimals", JNum (of_Z 9))])).
Proof.
  apply (@unknown_keys_ignored sample_is_url
           [("name", JStr "Test Collection"); ("uri", JStr sample_uri)]
           [("symbol", JStr "TST"); ("name", JStr "Test Collection");
            ("uri", JStr sample_uri); ("decimals", JNum (of_Z 9))]).
  intros k Hk. cbn in Hk.
  destruct Hk as [<- | [<- | [<- | [<- | []]]]]; reflexivity.
Defined.

(** An issue raised by one of four fields is among the issues collected. *)
Lemma zap4_issue {A B C D R} (f : A -> B -> C -> D -> R)
    (a : zres A) (b : zres B) (c : zres C) (d : zres D)
    (j : list ZodIssue) :
  a = ZErr j \/ b = ZErr j \/ c = ZErr j \/ d = ZErr j ->
  exists k, zap (zap (zap (zmap f a) b) c) d = ZErr k /\ incl j k.
Proof.
  destruct a, b, c, d; cbn; intros [H | [H | [H | H]]];
    try discriminate H; injection H as ->;
    eexists; (split; [ reflexivity | ]);
    intros x Hx; rewrite ?in_app_iff; tauto.
Qed.

Lemma field_issue (is_url : string -> bool) (fields : list (string * json))
    (j : list ZodIssue) :
  z_string is_url [str_min 1 (Some "Name is required")]
    [Key "name"] (lookup "name" fields) = ZErr j
  \/ z_string is_url [str_url (Some "URI must be a valid URL")]
       [Key "uri"] (lookup "uri" fields) = ZErr j
  \/ z_optional (z_number [num_min (of_Z 0); num_max (of_Z 10000)])
       [Key "royaltyBasisPoints"] (lookup "royaltyBasisPoints" fields) = ZErr j
  \/ z_optional (z_array (creatorSchema is_url))
       [Key "creators"] (lookup "creators" fields) = ZErr j ->
  exists issues,
    parse (collectionSchema is_url) (Some (JObj fields))
    = Thrown (ZodError issues)
    /\ incl j issues.
Proof.
  intros H. unfold parse, collectionSchema. cbn [app].
  destruct (zap4_issue mkParams H) as (k & -> & Hincl).
  exists k. split; [ reflexivity | assumption ].
Qed.

(** X7. [name] is required: when the candidate's [name] is missing, is not a
    string or is the empty string, the parse throws with an issue at [name];
    for the empty string it is the schema's own message. *)
Theorem name_is_required (is_url : string -> bool)
    (fields : list (string * json)) :
  (forall s, lookup "name" fields = Some (JStr s) -> s = EmptyString) ->
  exists issues i,
    parse (collectionSchema is_url) (Some (JObj fields))
    = Thrown (ZodError issues)
    /\ In i issues /\ path i = [Key "name"]
    /\ (lookup "name" fields = Some (JStr EmptyString) ->
        code i = too_small /\ custom i = Some "Name is required").
Proof.
  intros Hname.
  assert (Hz : exists i,
             z_string is_url [str_min 1 (Some "Name is required")]
               [Key "name"] (lookup "name" fields) = ZErr [i]
             /\ path i = [Key "name"]
             /\ (lookup "name" fields = Some (JStr EmptyString) ->
                 code i = too_small /\ custom i = Some "Name is required")).
  { destruct (lookup "name" fields) as [[ | b | n | s | items | fs ] | ];
      try (eexists; split; [ reflexivity | ];
           split; [ reflexivity | discriminate ]).
    rewrite (Hname s eq_refl).
    eexists. split; [ reflexivity | ]. split; [ reflexivity | ].
    intros _. split; reflexivity. }
  destruct Hz as (i & Hz & Hpath & Hcode).
  destruct (@field_issue is_url fields [i] (or_introl Hz))
    as (issues & Hparse & Hincl).
  exists issues, i. repeat split; try assumption; try apply Hcode; trivial.
  apply Hincl. left. reflexivity.
Qed.

Lemma name_is_required_witness :
  exists issues i,
    parse (collectionSchema sample_is_url)
      (Some (JObj [("name", JStr EmptyString); ("uri", JStr sample_uri)]))
    = Thrown (ZodError issues)
    /\ In i issues /\ path i = [Key "name"]
    /\ (lookup "name" [("name", JStr EmptyString); ("uri", JStr sample_uri)]
        = Some (JStr EmptyString) ->
        code i = too_small /\ custom i = Some "Name is required").
Proof.
  apply (@name_is_required sample_is_url
           [("name", JStr EmptyString); ("uri", JStr sample_uri)]).
  intros s H. cbn in H. injection H as <-. reflexivity.
Defined.

(** X8. [uri] must be a URL: when the candidate's [uri] is missing, is not a
    string or is a string that [new URL] refuses, the parse throws with an
    issue at [uri]; for a refused string it is the schema's own message. *)
Theorem uri_must_be_url (is_url : string -> bool)
    (fields : list (string * json)) :
  (forall u, lookup "uri" fields = Some (JStr u) -> is_url u = false) ->
  exists issues i,
    parse (collectionSchema is_url) (Some (JObj fields))
    = Thrown (ZodError issues)
    /\ In i issues /\ path i = [Key "uri"]
    /\ (forall u, lookup "uri" fields = Some (JStr u) ->
        code i = invalid_string
        /\ custom i = Some "URI must be a valid URL").
Proof.
  intros Huri.
  assert (Hz : exists i,
             z_string is_url [str_url (Some "URI must be a valid URL")]
               [Key "uri"] (lookup "uri" fields) = ZErr [i]
             /\ path i = [Key "uri"]
             /\ (forall u, lookup "uri" fields = Some (JStr u) ->
                 code i = invalid_string
                 /\ custom i = Some "URI must be a valid URL")).
  { destruct (lookup "uri" fields) as [[ | b | n | s | items | fs ] | ];
      try (eexists; split; [ reflexivity | ];
           split; [ reflexivity | discriminate ]).
    unfold z_string. cbn [flat_map run_string_check].
    rewrite (Huri s eq_refl).
    eexists. split; [ reflexivity | ]. split; [ reflexivity | ].
    intros u _. split; reflexivity. }
  destruct Hz as (i & Hz & Hpath & Hcode).
  destruct (@field_issue is_url fields [i] (or_intror (or_introl Hz)))
    as (issues & Hparse & Hincl).
  exists issues, i. repeat split; try assumption; try (eapply Hcode; eassumption).
  apply Hincl. left. reflexivity.
Qed.

Lemma uri_must_be_url_witness :
  exists issues i,
    parse (collectionSchema sample_is_url)
      (Some (JObj [("name", JStr "Test"); ("uri", JStr "not a url")]))
    = Thrown (ZodError issues)
    /\ In i issues /\ path i = [Key "uri"]
    /\ (forall u,
          lookup "uri" [("name", JStr "Test"); ("uri", JStr "not a url")]
          = Some (JStr u) ->
          code i = invalid_string
          /\ custom i = Some "URI must be a valid URL").
Proof.
  apply (@uri_must_be_url sample_is_url
           [("name", JStr "Test"); ("uri", JStr "not a url")]).
  intros u H. cbn in H. injection H as <-. reflexivity.
Defined.

(** An issue raised by one item of an array is among the array's issues. *)
Lemma parse_items_issue (is_url : string -> bool) (p : list seg)
    (items : list json) :
  forall (i k : nat) (x : json) (j : list ZodIssue),
    nth_error items k = Some x ->
    creatorSchema is_url (p ++ [Idx (i + k)]) (Some x) = ZErr j ->
    exists js,
      parse_items (creatorSchema is_url) p i items = ZErr js /\ incl j js.
Proof.
  induction items as [ | y rest IH ]; intros i k x j Hnth Hx.
  - destruct k; discriminate.
  - destruct k as [ | k ]; cbn [nth_error] in Hnth; cbn [parse_items].
    + injection Hnth as ->. rewrite Nat.add_0_r in Hx. rewrite Hx.
      change (zmap cons (ZErr j))
        with (@ZErr (list Creator -> list Creator) j).
      destruct (zap_err_l
                  (parse_items (creatorSchema is_url) p (S i) rest)
                  (eq_refl (@ZErr (list Creator -> list Creator) j)))
        as (js & Hjs & Hincl).
      exists js. split; assumption.
    + rewrite <- Nat.add_succ_comm in Hx.
      destruct (IH (S i) k x j Hnth Hx) as (js & Hjs & Hincl).
      destruct (zap_err_r
                  (zmap cons (creatorSchema is_url (p ++ [Idx i]) (Some y)))
                  Hjs) as (js' & Hjs' & Hincl').
      exists js'. split; [ assumption | ].
      intros z Hz. apply Hincl', Hincl, Hz.
Qed.

(** X9. A creator whose [percentage] is a number outside [0, 100] makes the
    parse throw, with an issue that names the entry and the field. *)
Theorem creator_percentage_out_of_range_rejected (is_url : string -> bool)
    (fields : list (string * json)) (items : list json) (k : nat)
    (fs : list (string * json)) (n : number) :
  lookup "creators" fields = Some (JArr items) ->
  nth_error items k = Some (JObj fs) ->
  lookup "percentage" fs = Some (JNum n) ->
  outside 0 100 n ->
  exists issues i,
    parse (collectionSchema is_url) (Some (JObj fields))
    = Thrown (ZodError issues)
    /\ In i issues
    /\ path i = [Key "creators"; Idx k; Key "percentage"].
Proof.
  intros Hcreators Hnth Hpercentage Hout.
  destruct (@z_number_range_rejects 0 100
              [Key "creators"; Idx k; Key "percentage"] n Hout)
    as (i & rest & Hrej & Hpath).
  assert (Hitem : exists j,
             creatorSchema is_url ([Key "creators"] ++ [Idx (0 + k)])
               (Some (JObj fs)) = ZErr j
             /\ In i j).
  { unfold creatorSchema. rewrite Hpercentage. cbn [app Nat.add].
    rewrite Hrej.
    match goal with
    | |- context [zap ?f (ZErr (i :: rest))] =>
        destruct (zap_err_r f (eq_refl (@ZErr number (i :: rest))))
          as (j & Hj & Hincl)
    end.
    exists j. split; [ assumption | ]. apply Hincl. left. reflexivity. }
  destruct Hitem as (j & Hj & Hin).
  destruct (parse_items_issue is_url [Key "creators"] items 0 k Hnth Hj)
    as (js & Hjs & Hincl).
  assert (Hfield : z_optional (z_array (creatorSchema is_url))
                     [Key "creators"] (lookup "creators" fields) = ZErr js).
  { rewrite Hcreators. cbn [z_optional z_array]. rewrite Hjs. reflexivity. }
  destruct (@field_issue is_url fields js
              (or_intror (or_intror (or_intror Hfield))))
    as (issues & Hparse & Hincl').
  exists issues, i. split; [ assumption | ].
  split; [ apply Hincl', Hincl, Hin | assumption ].
Qed.

Lemma creator_percentage_out_of_range_rejected_witness :
  exists issues i,
    parse (collectionSchema sample_is_url)
      (Some (JObj [("name", JStr "Test"); ("uri", JStr sample_uri);
                   ("creators", JArr [creator_json "A" 50;
                                      creator_json "B" 150])]))
    = Thrown (ZodError issues)
    /\ In i issues
    /\ path i = [Key "creators"; Idx 1; Key "percentage"].
Proof.
  apply (@creator_percentage_out_of_range_rejected sample_is_url
           [("name", JStr "Test"); ("uri", JStr sample_uri);
            ("creators", JArr [creator_json "A" 50; creator_json "B" 150])]
           [creator_json "A" 50; creator_json "B" 150] 1
           [("address", JStr "B"); ("percentage", JNum (of_Z 150))]
           (of_Z 150)); try reflexivity.
  right. reflexivity.
Defined.

(** X10. A candidate that is not an object (the model produced nothing,
    [null], a primitive or an array) is rejected with one [invalid_type]
    issue at the root. *)
Theorem non_object_candidate_rejected (is_url : string -> bool)
    (data : option json) :
  (forall fields, data <> Some (JObj fields)) ->
  parse (collectionSchema is_url) data
  = Thrown (ZodError [ {| code := invalid_type; path := []; custom := None |} ]).
Proof.
  intros H.
  destruct data as [[ | b | n | s | items | fields ] | ]; try reflexivity.
  destruct (H fields eq_refl).
Qed.

Lemma non_object_candidate_rejected_witness :
  parse (collectionSchema sample_is_url) (Some (JArr [JStr "Test"]))
  = Thrown (ZodError [ {| code := invalid_type; path := []; custom := None |} ]).
Proof.
  apply (@non_object_candidate_rejected sample_is_url
           (Some (JArr [JStr "Test"]))).
  intros fields H. discriminate H.
Defined.

(** ** The guard, exactly *)

(** X11. The guard treats an empty string like an absent field.  When [text]
    and [source] are each absent or empty the handler answers with the
    empty-input report and does nothing else; in every other case, also when
    only [source] is given, the first thing it does is the database
    lookup. *)
Theorem guard_exact (env : Env) (runtime : IAgentRuntime)
    (message : Memory) (state : State) (callback : bool) :
  let blank (s : option string) := s = None \/ s = Some EmptyString in
  let h := handler env runtime message state callback in
  (blank (msg_text (msg_content message))
   /\ blank (msg_source (msg_content message)) ->
   h = (reports callback empty_response, Returned false))
  /\ (~ (blank (msg_text (msg_content message))
         /\ blank (msg_source (msg_content message))) ->
      exists rest, trace h = EvGetMetrics (userId message) :: rest).
Proof.
  intros blank h. subst blank h. split.
  - intros [Ht Hs]. apply handler_empty. unfold has_content.
    destruct Ht as [-> | ->], Hs as [-> | ->]; reflexivity.
  - intros Hnot.
    assert (Hcontent : has_content message = true).
    { unfold has_content.
      destruct (msg_text (msg_content message)) as [[ | c t] | ];
        destruct (msg_source (msg_content message)) as [[ | c' s] | ];
        try reflexivity; exfalso; apply Hnot; split; auto. }
    pose proof (handler_runs env runtime message state callback) as Hrun.
    inversion Hrun as [ Hc E | pre e Hc Hpre E
                      | context data v kit r Hc Hparse Hdeploy E ].
    + congruence.
    + cbn [trace fst]. destruct Hpre; cbn [app]; eexists; reflexivity.
    + cbn [trace fst app]. eexists. reflexivity.
Qed.

(** ** The metadata check, exactly *)

(** X12. [validateMetadataUri] never throws and fetches exactly once.  It
    answers [true] exactly when the fetch returned an object whose [name],
    [description] and [image] are all truthy: a field that is present but
    empty, [null], [0] or [false] counts as missing. *)
Theorem metadata_check_exact (env : Env) (u : string) :
  exists b,
    validateMetadataUri env u = ([EvFetch u], Returned b)
    /\ (b = true <->
        exists doc,
          fetch_json env u = Returned (JObj doc)
          /\ truthy_opt (lookup "name" doc) = true
          /\ truthy_opt (lookup "description" doc) = true
          /\ truthy_opt (lookup "image" doc) = true).
Proof.
  exists (complete_metadata (fetch_json env u)).
  split; [ apply validateMetadataUri_run | ].
  unfold complete_metadata.
  destruct (fetch_json env u) as [[ | b | n | s | items | doc ] | e];
    try (split; [ discriminate | intros (d & H & _); discriminate H ]).
  split.
  - intros H. apply andb_true_iff in H. destruct H as [H Himage].
    apply andb_true_iff in H. destruct H as [Hname Hdescription].
    exists doc. repeat split; assumption.
  - intros (d & Hd & Hname & Hdescription & Himage).
    injection Hd as <-. rewrite Hname, Hdescription, Himage. reflexivity.
Qed.

(** ** What a run that reaches the SDK sends and reports *)

Section Requests.

Variable env : Env.
Variable runtime : IAgentRuntime.
Variable message : Memory.
Variable state : State.
Variable callback : bool.
Variable m : option json.
Variable context : string.
Variable data : option json.
Variable v : CollectionParams.
Hypothesis Hcontent : has_content message = true.
Hypothesis Hmetrics : getMetrics runtime (userId message) = Returned m.
Hypothesis Hcontext :
  composeContext env state collectionTemplate = Returned context.
Hypothesis Hmodel : generateObjectDeprecated runtime context = Returned data.
Hypothesis Hparse : parse (collectionSchema (is_url env)) data = Returned v.

(** X13. When the candidate leaves [royaltyBasisPoints] out, the request
    carries 500. *)
Theorem omitted_royalty_defaults_to_500 (kit : SolanaAgentKit) :
  new_kit env runtime = Returned kit ->
  p_royaltyBasisPoints v = None ->
  let h := handler env runtime message state callback in
  exists options pre rest,
    trace h = pre ++ EvDeploy options :: rest
    /\ count is_deploy pre = 0%nat /\ count is_deploy rest = 0%nat
    /\ royaltyBasisPoints options = of_Z 500.
Proof.
  intros Hkit Hnone h.
  destruct (handler_deploys env runtime message state callback
              Hcontent Hmetrics Hcontext Hmodel Hparse Hkit)
    as ((pre & rest & Htrace & Hpre & Hrest) & _).
  exists (request runtime v (snd (metadata_step env v)) kit), pre, rest.
  repeat split; try assumption.
  unfold request. cbn [royaltyBasisPoints]. rewrite Hnone. reflexivity.
Qed.

(** X14. A candidate with a usable metadata document, a royalty other than
    zero and a list of creators is sent to the SDK as it is: same name, same
    URI, same royalty, same creators. *)
Theorem valid_candidate_forwarded (kit : SolanaAgentKit)
    (doc : list (string * json)) (q : Q) (l : list Creator) :
  is_url env EmptyString = false ->
  new_kit env runtime = Returned kit ->
  fetch_json env (p_uri v) = Returned (JObj doc) ->
  truthy_opt (lookup "name" doc) = true ->
  truthy_opt (lookup "description" doc) = true ->
  truthy_opt (lookup "image" doc) = true ->
  p_royaltyBasisPoints v = Some (Finite q) ->
  ~ q == 0 ->
  p_creators v = Some l ->
  let h := handler env runtime message state callback in
  exists pre rest,
    trace h
    = pre ++ EvDeploy {| name := p_name v; uri := p_uri v;
                         royaltyBasisPoints := Finite q;
                         creators := l |} :: rest
    /\ count is_deploy pre = 0%nat /\ count is_deploy rest = 0%nat.
Proof.
  intros Hempty Hkit Hdoc Hname Hdescription Himage Hroyalty Hq Hcreators h.
  destruct (handler_deploys env runtime message state callback
              Hcontent Hmetrics Hcontext Hmodel Hparse Hkit)
    as ((pre & rest & Htrace & Hpre & Hrest) & _).
  assert (Hreq : request runtime v (snd (metadata_step env v)) kit
                 = {| name := p_name v; uri := p_uri v;
                      royaltyBasisPoints := Finite q; creators := l |}).
  { apply full_candidate_forwarded; try assumption.
    - apply (parsed_uri_truthy env data Hempty Hparse).
    - rewrite Hdoc. cbn. rewrite Hname, Hdescription, Himage. reflexivity.
    - cbn. apply negb_true_iff. apply not_true_is_false. intros H.
      apply Qeq_bool_iff in H. contradiction. }
  rewrite Hreq in Htrace.
  exists pre, rest. split; [ exact Htrace | split; assumption ].
Qed.

(** X15. When the SDK resolves, the handler resolves to [true] and the
    callback receives the collection address and the signature the SDK
    returned, with the validated name. *)
Theorem success_report (kit : SolanaAgentKit) (r : CollectionDeployment) :
  new_kit env runtime = Returned kit ->
  deployCollection kit (request runtime v (snd (metadata_step env v)) kit)
  = Returned r ->
  let h := handler env runtime message state callback in
  settled h = Returned true
  /\ filter is_callback (trace h)
     = reports callback
         {| text := ("Successfully deployed NFT collection " ++ dq
                     ++ p_name v ++ dq ++ "! Collection address: "
                     ++ collectionAddress r)%string;
            content := ContentSuccess (collectionAddress r) (p_name v)
                         (signature r) |}.
Proof.
  intros Hkit Hdeploy h. subst h.
  rewrite (handler_run env runtime message state callback
             Hcontent Hmetrics Hcontext Hmodel Hparse Hkit).
  cbv zeta. rewrite Hdeploy. cbn [settled trace fst snd].
  split; [ reflexivity | ].
  rewrite !filter_app, metadata_step_no_callback, callbacks_reports.
  reflexivity.
Qed.

(** X16. When [deployCollection] throws, the handler resolves to [false] and
    reports the SDK's message; the request was sent once and is not
    retried. *)
Theorem sdk_failure_reported (kit : SolanaAgentKit) (e : Error) :
  new_kit env runtime = Returned kit ->
  deployCollection kit (request runtime v (snd (metadata_step env v)) kit)
  = Thrown e ->
  let h := handler env runtime message state callback in
  settled h = Returned false
  /\ filter is_callback (trace h)
     = reports callback
         {| text := ("Failed to deploy collection: "
                     ++ error_message env e)%string;
            content := ContentError (error_message env e) |}
  /\ count is_deploy (trace h) = 1%nat.
Proof.
  intros Hkit Hdeploy h. subst h.
  rewrite (handler_run env runtime message state callback
             Hcontent Hmetrics Hcontext Hmodel Hparse Hkit).
  cbv zeta. rewrite Hdeploy. cbn [settled trace fst snd].
  split; [ reflexivity | ]. split.
  - rewrite !filter_app, metadata_step_no_callback, callbacks_reports.
    reflexivity.
  - rewrite !count_app, count_reports by reflexivity.
    rewrite metadata_step_fetches.
    destruct (truthy_str (p_uri v)); reflexivity.
Qed.

(** X17. When the SDK instance cannot be built, no deployment is requested:
    the handler reports the constructor's message and resolves to
    [false]. *)
Theorem kit_failure_no_deploy (e : Error) :
  new_kit env runtime = Thrown e ->
  let h := handler env runtime message state callback in
  settled h = Returned false
  /\ filter is_callback (trace h)
     = reports callback
         {| text := ("Failed to deploy collection: "
                     ++ error_message env e)%string;
            content := ContentError (error_message env e) |}
  /\ count is_new_kit (trace h) = 1%nat
  /\ count is_deploy (trace h) = 0%nat.
Proof.
  intros Hkit h. subst h.
  rewrite (handler_no_kit env runtime message state callback
             Hcontent Hmetrics Hcontext Hmodel Hparse Hkit).
  cbn [settled trace fst snd].
  split; [ reflexivity | ]. split.
  - rewrite !filter_app, metadata_step_no_callback, callbacks_reports.
    reflexivity.
  - rewrite !count_app, !count_reports by reflexivity.
    rewrite metadata_step_fetches.
    split; destruct (truthy_str (p_uri v)); reflexivity.
Qed.

End Requests.

Lemma omitted_royalty_defaults_to_500_witness :
  let candidate :=
    JObj [("name", JStr "Test Collection"); ("uri", JStr sample_uri)] in
  let h := handler (sample_env (Returned good_metadata))
             (sample_runtime candidate) sample_message sample_state true in
  exists options pre rest,
    trace h = pre ++ EvDeploy options :: rest
    /\ count is_deploy pre = 0%nat /\ count is_deploy rest = 0%nat
    /\ royaltyBasisPoints options = of_Z 500.
Proof.
  intros candidate.
  apply (@omitted_royalty_defaults_to_500
           (sample_env (Returned good_metadata)) (sample_runtime candidate)
           sample_message sample_state true None collectionTemplate
           (Some candidate)
           {| p_name := "Test Collection"; p_uri := sample_uri;
              p_royaltyBasisPoints := None; p_creators := None |}
           eq_refl eq_refl eq_refl eq_refl eq_refl sample_kit);
    reflexivity.
Defined.

Lemma valid_candidate_forwarded_witness :
  let h := handler (sample_env (Returned good_metadata))
             (sample_runtime (full_candidate (of_Z 250)))
             sample_message sample_state true in
  exists pre rest,
    trace h
    = pre ++ EvDeploy
               {| name := "Test Collection"; uri := sample_uri;
                  royaltyBasisPoints := Finite (inject_Z 250);
                  creators :=
                    [ {| address := "CREATOR1"; percentage := of_Z 60 |};
                      {| address := "CREATOR2"; percentage := of_Z 40 |} ] |}
             :: rest
    /\ count is_deploy pre = 0%nat /\ count is_deploy rest = 0%nat.
Proof.
  apply (@valid_candidate_forwarded
           (sample_env (Returned good_metadata))
           (sample_runtime (full_candidate (of_Z 250)))
           sample_message sample_state true None collectionTemplate
           (Some (full_candidate (of_Z 250)))
           {| p_name := "Test Collection"; p_uri := sample_uri;
              p_royaltyBasisPoints := Some (of_Z 250);
              p_creators :=
                Some [ {| address := "CREATOR1"; percentage := of_Z 60 |};
                       {| address := "CREATOR2"; percentage := of_Z 40 |} ] |}
           eq_refl eq_refl eq_refl eq_refl eq_refl sample_kit
           [("name", JStr "Test"); ("description", JStr "A test collection");
            ("image", JStr "https://example.org/image.png")]
           (inject_Z 250)
           [ {| address := "CREATOR1"; percentage := of_Z 60 |};
             {| address := "CREATOR2"; percentage := of_Z 40 |} ]);
    try reflexivity.
  unfold Qeq. cbn. lia.
Defined.

Lemma success_report_witness :
  let h := handler (sample_env (Returned good_metadata))
             (sample_runtime candidate_without_creators)
             sample_message sample_state true in
  settled h = Returned true
  /\ filter is_callback (trace h)
     = reports true
         {| text := ("Successfully deployed NFT collection " ++ dq
                     ++ "Test Collection" ++ dq ++ "! Collection address: "
                     ++ "COLLECTION1")%string;
            content := ContentSuccess "COLLECTION1" "Test Collection" "SIG1" |}.
Proof.
  apply (@success_report
           (sample_env (Returned good_metadata))
           (sample_runtime candidate_without_creators)
           sample_message sample_state true None collectionTemplate
           (Some candidate_without_creators)
           {| p_name := "Test Collection"; p_uri := sample_uri;
              p_royaltyBasisPoints := Some (of_Z 500);
              p_creators := None |}
           eq_refl eq_refl eq_refl eq_refl eq_refl sample_kit
           sample_deployment); reflexivity.
Defined.

Lemma sdk_failure_reported_witness :
  let env := {| is_url := sample_is_url;
                zod_message := fun _ => "Invalid input";
                composeContext := fun _ template => Returned template;
                fetch_json := fun _ => Returned good_metadata;
                newSolanaAgentKit := fun _ _ _ => Returned failing_kit |} in
  let h := handler env (sample_runtime candidate_without_creators)
             sample_message sample_state true in
  settled h = Returned false
  /\ filter is_callback (trace h)
     = reports true
         {| text := ("Failed to deploy collection: "
                     ++ error_message env (OtherError "insufficient funds"))%string;
            content :=
              ContentError
                (error_message env (OtherError "insufficient funds")) |}
  /\ count is_deploy (trace h) = 1%nat.
Proof.
  intros env.
  apply (@sdk_failure_reported env
           (sample_runtime candidate_without_creators)
           sample_message sample_state true None collectionTemplate
           (Some candidate_without_creators)
           {| p_name := "Test Collection"; p_uri := sample_uri;
              p_royaltyBasisPoints := Some (of_Z 500);
              p_creators := None |}
           eq_refl eq_refl eq_refl eq_refl eq_refl failing_kit
           (OtherError "insufficient funds")); reflexivity.
Defined.

Lemma kit_failure_no_deploy_witness :
  let env := {| is_url := sample_is_url;
                zod_message := fun _ => "Invalid input";
                composeContext := fun _ template => Returned template;
                fetch_json := fun _ => Returned good_metadata;
                newSolanaAgentKit := fun _ _ _ =>
                  Thrown (OtherError "bad secret key size") |} in
  let h := handler env (sample_runtime candidate_without_creators)
             sample_message sample_state true in
  settled h = Returned false
  /\ filter is_callback (trace h)
     = reports true
         {| text := ("Failed to deploy collection: "
                     ++ error_message env (OtherError "bad secret key size"))%string;
            content :=
              ContentError
                (error_message env (OtherError "bad secret key size")) |}
  /\ count is_new_kit (trace h) = 1%nat
  /\ count is_deploy (trace h) = 0%nat.
Proof.
  intros env.
  apply (@kit_failure_no_deploy env
           (sample_runtime candidate_without_creators)
           sample_message sample_state true None collectionTemplate
           (Some candidate_without_creators)
           {| p_name := "Test Collection"; p_uri := sample_uri;
              p_royaltyBasisPoints := Some (of_Z 500);
              p_creators := None |}
           eq_refl eq_refl eq_refl eq_refl eq_refl
           (OtherError "bad secret key size")); reflexivity.
Defined.

(** ** What the run does not depend on *)

(** X18. The [SOLANA_PUBLIC_KEY] setting has no influence on the run: with
    any other value, or none, the handler makes the same calls with the same
    arguments and gives the same report and result. *)
Theorem public_key_setting_irrelevant (env : Env) (runtime : IAgentRuntime)
    (message : Memory) (state : State) (callback : bool)
    (value : option string) :
  handler env (with_setting runtime "SOLANA_PUBLIC_KEY" value)
    message state callback
  = handler env runtime message state callback.
Proof.
  unfold handler, with_setting.
  cbn [getSetting getMetrics generateObjectDeprecated String.eqb Ascii.eqb
       Bool.eqb].
  destruct (negb (truthy_ostr (msg_text (msg_content message)))
            && negb (truthy_ostr (msg_source (msg_content message))));
    [ reflexivity | ].
  destruct (getMetrics runtime (userId message)); reflexivity.
Qed.

(** X19. Beyond the guard and the user id, the message is not read: the
    text of the message reaches the model only through [state].  Two
    messages of the same user that both pass the guard give the same run. *)
Theorem message_text_not_read (env : Env) (runtime : IAgentRuntime)
    (message message' : Memory) (state : State) (callback : bool) :
  userId message = userId message' ->
  has_content message = true ->
  has_content message' = true ->
  handler env runtime message state callback
  = handler env runtime message' state callback.
Proof.
  intros Hid Hc Hc'. unfold handler.
  rewrite (guard_passed message Hc), (guard_passed message' Hc'), Hid.
  reflexivity.
Qed.

Lemma message_text_not_read_witness :
  handler (sample_env (Returned good_metadata))
    (sample_runtime (full_candidate (of_Z 250)))
    sample_message sample_state true
  = handler (sample_env (Returned good_metadata))
      (sample_runtime (full_candidate (of_Z 250)))
      {| userId := "test-user"; roomId := "another-room";
         msg_content := {| msg_text := None; msg_source := Some "twitter" |} |}
      sample_state true.
Proof.
  apply (@message_text_not_read (sample_env (Returned good_metadata))
           (sample_runtime (full_candidate (of_Z 250)))
           sample_message
           {| userId := "test-user"; roomId := "another-room";
              msg_content :=
                {| msg_text := None; msg_source := Some "twitter" |} |}
           sample_state true); reflexivity.
Defined.

(** ** The POST_TWEET_TOKEN handler *)

(** The three runs of the handler. *)
Lemma tweet_handler_run (env : PostTweetToken.Env) (runtime : IAgentRuntime)
    (message : Memory) (callback : bool) :
  PostTweetToken.handler env runtime message callback
  = match PostTweetToken.newSolanaAgentKit env
            (getSetting runtime "SOLANA_PRIVATE_KEY")
            (getSetting runtime "SOLANA_RPC_URL")
            (getSetting runtime "OPENAI_API_KEY") with
    | Thrown e =>
        ([tweet_kit_event runtime]
           ++ tweet_reports callback (tweet_failure env e),
         Returned false)
    | Returned kit =>
        match PostTweetToken.deployToken kit
                ("Tweet Token " ++ string_of_Z (PostTweetToken.now env))
                (default_uri runtime) "TWEET" 9 with
        | Thrown e =>
            ([tweet_kit_event runtime; tweet_deploy_event env runtime]
               ++ tweet_reports callback (tweet_failure env e),
             Returned false)
        | Returned a =>
            ([tweet_kit_event runtime; tweet_deploy_event env runtime]
               ++ tweet_reports callback (tweet_success env runtime a),
             Returned true)
        end
    end.
Proof.
  unfold PostTweetToken.handler.
  destruct (PostTweetToken.newSolanaAgentKit env _ _ _) as [kit | e];
    cbn -[string_of_Z]; [ | destruct callback; reflexivity ].
  fold (default_uri runtime).
  destruct (PostTweetToken.deployToken kit _ _ _ _) as [a | e];
    destruct callback; reflexivity.
Qed.



Lemma not_in_tweet_reports (callback : bool) (r : PostTweetToken.Response)
    (n u s : string) (d : Z) :
  ~ In (PostTweetToken.EvDeployToken n u s d) (tweet_reports callback r).
Proof.
  destruct callback; cbn; intros H; [ | exact H ].
  destruct H as [H | []]. discriminate.
Qed.

(** X21. The token that is requested: at most one [deployToken] call is
    made, after the SDK instance is built, and it always asks for the symbol
    TWEET with 9 decimals, a name made of "Tweet Token " and the current time
    in milliseconds, and the configured default metadata URI (the hardcoded
    one when the setting is empty). *)
Theorem tweet_token_parameters (env : PostTweetToken.Env)
    (runtime : IAgentRuntime) (message : Memory) (callback : bool) :
  let h := PostTweetToken.handler env runtime message callback in
  (length (filter PostTweetToken.is_deploy_token (PostTweetToken.trace h))
   <= 1)%nat
  /\ (forall n u s d,
        In (PostTweetToken.EvDeployToken n u s d) (PostTweetToken.trace h) ->
        n = ("Tweet Token " ++ string_of_Z (PostTweetToken.now env))%string
        /\ u = default_uri runtime
        /\ s = "TWEET" /\ d = 9%Z
        /\ exists rest,
             PostTweetToken.trace h
             = tweet_kit_event runtime
                 :: PostTweetToken.EvDeployToken n u s d :: rest).
Proof.
  intros h. subst h. rewrite tweet_handler_run.
  destruct (PostTweetToken.newSolanaAgentKit env _ _ _) as [kit | e];
    [ destruct (PostTweetToken.deployToken kit _ _ _ _) as [a | e] | ];
    cbn [PostTweetToken.trace fst app]; (split;
      [ destruct callback; cbn; lia | ]);
    intros n u s d Hin; unfold tweet_kit_event, tweet_deploy_event in Hin;
    cbn [In] in Hin;
    repeat (destruct Hin as [Hin | Hin]; [ try discriminate Hin | ]);
    try (destruct (not_in_tweet_reports _ _ _ _ _ _ Hin)).
  - injection Hin as <- <- <- <-. repeat split. eexists. reflexivity.
  - injection Hin as <- <- <- <-. repeat split. eexists. reflexivity.
Qed.

(** X22. The handler does not read the tweet: whatever the message, also an
    empty one, it makes the same calls and gives the same report. *)
Theorem tweet_message_ignored (env : PostTweetToken.Env)
    (runtime : IAgentRuntime) (message message' : Memory) (callback : bool) :
  PostTweetToken.handler env runtime message callback
  = PostTweetToken.handler env runtime message' callback.
Proof. rewrite !tweet_handler_run. reflexivity. Qed.

Lemma append_inj_l (p a b : string) :
  (p ++ a)%string = (p ++ b)%string -> a = b.
Proof.
  induction p as [ | c p IH ]; cbn; intros H; [ assumption | ].
  injection H as H. apply IH, H.
Qed.

Lemma string_of_Z_inj (t t' : Z) : string_of_Z t = string_of_Z t' -> t = t'.
Proof.
  unfold string_of_Z. intros H. apply DecimalZ.to_int_inj.
  assert (Hs : Some (Z.to_int t) = Some (Z.to_int t')).
  { rewrite <- (NilEmpty.isi (Z.to_int t)), <- (NilEmpty.isi (Z.to_int t')).
    rewrite H. reflexivity. }
  injection Hs as Hs. exact Hs.
Qed.

Lemma tweet_deploy_name (env : PostTweetToken.Env) (runtime : IAgentRuntime)
    (message : Memory) (callback : bool) (n u s : string) (d : Z) :
  In (PostTweetToken.EvDeployToken n u s d)
     (PostTweetToken.trace
        (PostTweetToken.handler env runtime message callback)) ->
  n = ("Tweet Token " ++ string_of_Z (PostTweetToken.now env))%string.
Proof.
  rewrite tweet_handler_run.
  destruct (PostTweetToken.newSolanaAgentKit env _ _ _) as [kit | e];
    [ destruct (PostTweetToken.deployToken kit _ _ _ _) as [a | e] | ];
    cbn [PostTweetToken.trace fst app];
    intros Hin; unfold tweet_kit_event, tweet_deploy_event in Hin;
    cbn [In] in Hin;
    repeat (destruct Hin as [Hin | Hin]; [ try discriminate Hin | ]);
    try (destruct (not_in_tweet_reports _ _ _ _ _ _ Hin));
    injection Hin as <- _ _ _; reflexivity.
Qed.

(** X23. Tokens requested at different times get different names: the name
    determines the millisecond at which the handler read the clock. *)
Theorem tweet_names_differ (env env' : PostTweetToken.Env)
    (runtime runtime' : IAgentRuntime) (message message' : Memory)
    (callback callback' : bool) (n u s n' u' s' : string) (d d' : Z) :
  PostTweetToken.now env <> PostTweetToken.now env' ->
  In (PostTweetToken.EvDeployToken n u s d)
     (PostTweetToken.trace
        (PostTweetToken.handler env runtime message callback)) ->
  In (PostTweetToken.EvDeployToken n' u' s' d')
     (PostTweetToken.trace
        (PostTweetToken.handler env' runtime' message' callback')) ->
  n <> n'.
Proof.
  intros Hnow Hin Hin' Heq.
  apply tweet_deploy_name in Hin. apply tweet_deploy_name in Hin'.
  subst n n'. apply append_inj_l, string_of_Z_inj in Heq.
  contradiction.
Qed.

(** X24. When [deployToken] resolves, the handler resolves to [true] and
    the callback receives the deployed address together with the very
    details that were sent to the SDK. *)
Theorem minted_token_reported (env : PostTweetToken.Env)
    (runtime : IAgentRuntime) (message : Memory) (callback : bool)
    (kit : PostTweetToken.SolanaAgentKit) (a : json) :
  PostTweetToken.newSolanaAgentKit env
    (getSetting runtime "SOLANA_PRIVATE_KEY")
    (getSetting runtime "SOLANA_RPC_URL")
    (getSetting runtime "OPENAI_API_KEY") = Returned kit ->
  PostTweetToken.deployToken kit
    ("Tweet Token " ++ string_of_Z (PostTweetToken.now env))
    (default_uri runtime) "TWEET" 9 = Returned a ->
  let h := PostTweetToken.handler env runtime message callback in
  exists details,
    PostTweetToken.trace h
    = [tweet_kit_event runtime;
       PostTweetToken.EvDeployToken (PostTweetToken.name details)
         (PostTweetToken.uri details) (PostTweetToken.symbol details)
         (PostTweetToken.decimals details)]
        ++ (if callback
            then [PostTweetToken.EvCallback
                    {| PostTweetToken.text :=
                         ("Minted token for tweet: "
                          ++ PostTweetToken.to_string env a)%string;
                       PostTweetToken.content :=
                         PostTweetToken.ContentSuccess a details true |}]
            else [])
    /\ PostTweetToken.settled h = Returned true.
Proof.
  intros Hkit Hdeploy h. subst h.
  rewrite tweet_handler_run, Hkit, Hdeploy.
  exists (tweet_token_details env runtime).
  split; [ destruct callback; reflexivity | reflexivity ].
Qed.

Lemma tweet_names_differ_witness :
  ("Tweet Token " ++ string_of_Z 1736500000123)%string
  <> ("Tweet Token " ++ string_of_Z 1736500000124)%string.
Proof.
  apply (@tweet_names_differ
           (sample_token_env_at 1736500000123 (Returned (JStr "MINT1")))
           (sample_token_env_at 1736500000124 (Returned (JStr "MINT2")))
           (sample_runtime JNull) (sample_runtime JNull)
           sample_message empty_message true false
           _ fallback_metadata_uri "TWEET" _ fallback_metadata_uri "TWEET"
           9%Z 9%Z).
  - discriminate.
  - vm_compute. right. left. reflexivity.
  - vm_compute. right. left. reflexivity.
Defined.

Lemma minted_token_reported_witness :
  let env := sample_token_env_at 1736500000123 (Returned (JStr "MINT1")) in
  let h := PostTweetToken.handler env (sample_runtime JNull) empty_message
             true in
  exists details,
    PostTweetToken.trace h
    = [tweet_kit_event (sample_runtime JNull);
       PostTweetToken.EvDeployToken (PostTweetToken.name details)
         (PostTweetToken.uri details) (PostTweetToken.symbol details)
         (PostTweetToken.decimals details)]
        ++ [PostTweetToken.EvCallback
              {| PostTweetToken.text :=
                   ("Minted token for tweet: "
                    ++ PostTweetToken.to_string env (JStr "MINT1"))%string;
                 PostTweetToken.content :=
                   PostTweetToken.ContentSuccess (JStr "MINT1") details true |}]
    /\ PostTweetToken.settled h = Returned true.
Proof.
  intros env.
  apply (@minted_token_reported env (sample_runtime JNull) empty_message true
           {| PostTweetToken.deployToken := fun _ _ _ _ =>
                Returned (JStr "MINT1") |}
           (JStr "MINT1")); reflexivity.
Defined.

(** ** The interactive chat *)

Lemma write_chunk_writes (chunk : Chat.Chunk) (out : list Chat.console) :
  Chat.write_chunk chunk = Returned out ->
  Forall (fun ev => exists s, ev = Chat.Write s) out.
Proof.
  unfold Chat.write_chunk.
  destruct (Chat.agent chunk) as [[ | c ms] | ];
    [ discriminate | | destruct (Chat.tools chunk) as [[ | c ms] | ] ];
    cbn; intros H; try discriminate H; injection H as <-;
    repeat constructor; eexists; reflexivity.
Qed.

Lemma write_chunks_writes (chunks : list Chat.Chunk) (failure : option Error) :
  Forall (fun ev => exists s, ev = Chat.Write s)
    (fst (Chat.write_chunks chunks failure)).
Proof.
  induction chunks as [ | chunk rest IH ]; cbn; [ constructor | ].
  destruct (Chat.write_chunk chunk) as [out | e] eqn:Hc; [ | constructor ].
  destruct (Chat.write_chunks rest failure) as [out' r]. cbn in *.
  apply Forall_app. split; [ apply (write_chunk_writes _ Hc) | exact IH ].
Qed.

Lemma writes_not_streamed (out : list Chat.console) :
  Forall (fun ev => exists s, ev = Chat.Write s) out ->
  Chat.streamed out = []
  /\ filter Chat.is_question out = []
  /\ filter Chat.is_close out = [].
Proof.
  induction 1 as [ | ev out [s ->] _ IH ]; [ repeat split | ].
  destruct IH as (H1 & H2 & H3). cbn. rewrite H2, H3.
  unfold Chat.streamed in *. cbn. rewrite H1. repeat split.
Qed.

Section ChatSession.

Variable S : Type.
Variable stream :
  S -> string -> outcome (list Chat.Chunk * option Error) * S.

Lemma askQuestion_stops_at_exit (x : string) (post pre : list string) :
  Chat.is_exit x = true ->
  forall agent,
    Chat.askQuestion stream agent (pre ++ x :: post)
    = Chat.askQuestion stream agent (pre ++ [x]).
Proof.
  intros Hx. induction pre as [ | input pre IH ]; intros agent; cbn.
  - rewrite Hx. reflexivity.
  - destruct (Chat.is_exit input); [ reflexivity | ].
    destruct (stream agent input) as [[[chunks failure] | e] agent'];
      [ | reflexivity ].
    destruct (Chat.write_chunks chunks failure) as [written [e | ]];
      [ reflexivity | ].
    rewrite IH. reflexivity.
Qed.

(** X25. Whatever follows an exit is never seen: a session on inputs that
    contain an exit is the session on the inputs up to and including it. *)
Theorem inputs_after_exit_ignored (initializeAgent : outcome S)
    (x : string) (pre post : list string) :
  Chat.is_exit x = true ->
  Chat.runInteractiveChat stream initializeAgent (pre ++ x :: post)
  = Chat.runInteractiveChat stream initializeAgent (pre ++ [x]).
Proof.
  intros Hx. unfold Chat.runInteractiveChat.
  destruct initializeAgent as [agent | e]; [ | reflexivity ].
  rewrite (askQuestion_stops_at_exit x post pre Hx). reflexivity.
Qed.

Lemma askQuestion_streams (inputs : list string) :
  forall agent,
    let (out, e) := Chat.askQuestion stream agent inputs in
    (exists rest, Chat.before_exit inputs = Chat.streamed out ++ rest)
    /\ ((forall err, e <> Chat.Rejected err) ->
        Chat.streamed out = Chat.before_exit inputs).
Proof.
  induction inputs as [ | input rest IH ]; intros agent; cbn.
  - split; [ exists []; reflexivity | reflexivity ].
  - destruct (Chat.is_exit input).
    { split; [ exists []; reflexivity | reflexivity ]. }
    destruct (stream agent input) as [[[chunks failure] | e] agent'].
    2: { split; [ exists (Chat.before_exit rest); reflexivity | ].
         intros H. destruct (H e eq_refl). }
    pose proof (write_chunks_writes chunks failure) as Hw.
    destruct (Chat.write_chunks chunks failure) as [written [e | ]];
      cbn [fst] in Hw; apply writes_not_streamed in Hw;
      destruct Hw as (Hs & _ & _).
    + unfold Chat.streamed in *. cbn. rewrite Hs. split.
      * exists (Chat.before_exit rest). reflexivity.
      * intros H. destruct (H e eq_refl).
    + specialize (IH agent').
      destruct (Chat.askQuestion stream agent' rest) as [out e].
      destruct IH as [[more Hmore] Heq].
      unfold Chat.streamed in *. cbn.
      rewrite flat_map_app, Hs. cbn. split.
      * exists more. rewrite Hmore. reflexivity.
      * intros H. rewrite (Heq H). reflexivity.
Qed.

(** X26. The agent is asked exactly the inputs typed before the first exit,
    in their order, each once, for as long as nothing fails; when a stream
    fails, it has been asked a prefix of them and is not asked again. *)
Theorem agent_asked_inputs_before_exit (agent : S) (inputs : list string) :
  let (out, e) := Chat.runInteractiveChat stream (Returned agent) inputs in
  (exists rest, Chat.before_exit inputs = Chat.streamed out ++ rest)
  /\ ((forall err, e <> Chat.Rejected err) ->
      Chat.streamed out = Chat.before_exit inputs).
Proof.
  unfold Chat.runInteractiveChat.
  pose proof (askQuestion_streams inputs agent) as H.
  destruct (Chat.askQuestion stream agent inputs) as [out e].
  exact H.
Qed.

End ChatSession.

Lemma inputs_after_exit_ignored_witness :
  Chat.runInteractiveChat Chat.echo (Returned 0%nat)
    (["hello"; "EXIT"] ++ ["deploy a token"; "exit"])
  = Chat.runInteractiveChat Chat.echo (Returned 0%nat) (["hello"] ++ ["EXIT"]).
Proof.
  apply (@inputs_after_exit_ignored nat Chat.echo (Returned 0%nat) "EXIT"
           ["hello"] ["deploy a token"; "exit"]).
  reflexivity.
Defined.

(** The letters that [lower] maps to a given lower-case letter. *)
Ltac lower_cases c :=
  destruct c as [[] [] [] [] [] [] [] []]; vm_compute;
  (split; intros H;
   [ (left; reflexivity) || (right; reflexivity) || discriminate H
   | reflexivity || (destruct H as [H | H]; discriminate H) ]).

Lemma lower_e (c : ascii) :
  Chat.lower c = "e"%char <-> c = "e"%char \/ c = "E"%char.
Proof. lower_cases c. Qed.

Lemma lower_x (c : ascii) :
  Chat.lower c = "x"%char <-> c = "x"%char \/ c = "X"%char.
Proof. lower_cases c. Qed.

Lemma lower_i (c : ascii) :
  Chat.lower c = "i"%char <-> c = "i"%char \/ c = "I"%char.
Proof. lower_cases c. Qed.

Lemma lower_t (c : ascii) :
  Chat.lower c = "t"%char <-> c = "t"%char \/ c = "T"%char.
Proof. lower_cases c. Qed.

(** X27. The inputs that end the session are exactly the sixteen spellings
    of "exit" in upper and lower case.  The input is not trimmed: with a
    space before or after, or any other character, it goes to the agent. *)
Theorem exit_spellings (input : string) :
  Chat.is_exit input = true
  <-> exists c1 c2 c3 c4,
        input = String c1 (String c2 (String c3 (String c4 EmptyString)))
        /\ (c1 = "e"%char \/ c1 = "E"%char)
        /\ (c2 = "x"%char \/ c2 = "X"%char)
        /\ (c3 = "i"%char \/ c3 = "I"%char)
        /\ (c4 = "t"%char \/ c4 = "T"%char).
Proof.
  unfold Chat.is_exit. rewrite String.eqb_eq. split.
  - destruct input as [ | c1 [ | c2 [ | c3 [ | c4 [ | c5 r ] ] ] ] ];
      cbn [Chat.toLowerCase]; intros H; try discriminate H.
    injection H as H1 H2 H3 H4.
    exists c1, c2, c3, c4. split; [ reflexivity | ].
    rewrite <- lower_e, <- lower_x, <- lower_i, <- lower_t.
    repeat split; assumption.
  - intros (c1 & c2 & c3 & c4 & -> & H1 & H2 & H3 & H4).
    apply lower_e in H1. apply lower_x in H2.
    apply lower_i in H3. apply lower_t in H4.
    cbn [Chat.toLowerCase]. rewrite H1, H2, H3, H4. reflexivity.
Qed.

Section ChatShape.

Variable S : Type.
Variable stream :
  S -> string -> outcome (list Chat.Chunk * option Error) * S.

Lemma askQuestion_shape (inputs : list string) :
  forall agent,
    let (out, e) := Chat.askQuestion stream agent inputs in
    session_shape out e.
Proof.
  unfold session_shape.
  induction inputs as [ | input rest IH ]; intros agent; cbn.
  - split; reflexivity.
  - destruct (Chat.is_exit input).
    { split; [ reflexivity | ].
      exists [Chat.Question "You: "]. split; reflexivity. }
    destruct (stream agent input) as [[[chunks failure] | e] agent'].
    2: { split; reflexivity. }
    pose proof (write_chunks_writes chunks failure) as Hw.
    destruct (Chat.write_chunks chunks failure) as [written [e | ]];
      cbn [fst] in Hw; apply writes_not_streamed in Hw;
      destruct Hw as (Hs & Hq & Hc).
    + unfold Chat.streamed in *. cbn. rewrite Hs, Hq, Hc.
      split; reflexivity.
    + specialize (IH agent').
      destruct (Chat.askQuestion stream agent' rest) as [out e].
      destruct IH as [Hcount Hclose].
      unfold Chat.streamed in *. cbn.
      rewrite !filter_app, flat_map_app, Hs, Hq, Hc. cbn.
      split; [ rewrite Hcount; reflexivity | ].
      destruct e as [ | | err ]; try assumption.
      destruct Hclose as (pre & -> & Hpre).
      exists (Chat.Question "You: " :: Chat.Stream input
                :: Chat.Write "Agent: "
                :: written
                ++ Chat.Log (String (ascii_of_nat 10) Chat.dashes) :: pre).
      split.
      * cbn. rewrite <- app_assoc. reflexivity.
      * cbn. rewrite filter_app, Hc. cbn. exact Hpre.
Qed.

(** X28. The shape of every session.  The readline interface is closed
    exactly when the user typed an exit, and closing it is the last thing
    the session does.  Each answered question is followed by a new prompt:
    a session that ends by exit or by the end of the input has asked one
    question more than it sent to the agent, a session that a failure
    stopped has asked as many and prompts no more. *)
Theorem chat_session_shape (initializeAgent : outcome S)
    (inputs : list string) :
  let (out, e) := Chat.runInteractiveChat stream initializeAgent inputs in
  length (filter Chat.is_question out)
  = (length (Chat.streamed out)
     + match e with Chat.Rejected _ => 0 | _ => 1 end)%nat
  /\ match e with
     | Chat.Exited =>
         exists pre, out = pre ++ [Chat.Close] /\ filter Chat.is_close pre = []
     | _ => filter Chat.is_close out = []
     end.
Proof.
  unfold Chat.runInteractiveChat.
  destruct initializeAgent as [agent | err]; [ | split; reflexivity ].
  pose proof (askQuestion_shape inputs agent) as H.
  destruct (Chat.askQuestion stream agent inputs) as [out e].
  destruct H as [Hcount Hclose]. split.
  - cbn. exact Hcount.
  - destruct e as [ | | err ]; try exact Hclose.
    destruct Hclose as (pre & -> & Hpre).
    exists (Chat.Clear
              :: Chat.Log "Chat with Solana Agent (type 'exit' to quit)"
              :: Chat.Log Chat.dashes :: pre).
    split; [ reflexivity | exact Hpre ].
Qed.

End ChatShape.
